(** * Value_Chain: the metric computation of [app.py], embedded and verified

    The script reads a list of actors from the form, runs one loop that
    computes the per-actor metrics into [data], and a second loop that
    derives the recommendation strings from [data].  Both loops are embedded
    below as state-passing functions in an error monad; Python numbers are
    modelled as they are at run time: unbounded [int]s and IEEE-754 binary64
    [float]s (through the executable specification [SpecFloat] of the
    Standard Library). *)

From Stdlib Require Import ZArith QArith Bool String List Lia.
From Stdlib Require Import Floats.SpecFloat.
From Stdlib Require Import DecimalString DecimalNat.
Import ListNotations.

Local Open Scope Z_scope.

(** ** Exceptions and the error monad *)

Inductive exn : Type :=
| ZeroDivisionError
| IndexError
| OverflowError.

Inductive result (A : Type) : Type :=
| Ok (a : A)
| Raise (e : exn).

Arguments Ok {A} a.
Arguments Raise {A} e.

Definition bind {A B : Type} (m : result A) (k : A -> result B) : result B :=
  match m with
  | Ok a => k a
  | Raise e => Raise e
  end.

Notation "x <- m ;; k" := (bind m (fun x => k))
  (at level 61, m at next level, right associativity).

(** ** Python numbers *)

Module PyNum.

(** binary64: 53 bits of precision, infinities at exponent 1024. *)
Definition prec : Z := 53.
Definition emax : Z := 1024.

Definition float : Type := spec_float.

Definition fsub : float -> float -> float := SFsub prec emax.
Definition fmul : float -> float -> float := SFmul prec emax.
Definition fdiv : float -> float -> float := SFdiv prec emax.

Definition pos_zero : float := S754_zero false.

Definition is_nan (f : float) : bool :=
  match f with S754_nan => true | _ => false end.

Definition is_infinite (f : float) : bool :=
  match f with S754_infinity _ => true | _ => false end.

(** What [math.isfinite] tests: neither an infinity nor a NaN. *)
Definition is_finite (f : float) : bool :=
  match f with
  | S754_zero _ | S754_finite _ _ _ => true
  | _ => false
  end.

(** [f == 0.0]: true of both zeros, false of NaN. *)
Definition is_zero (f : float) : bool := SFeqb f pos_zero.

(** The quotient [n / d] of two integers, [0 < d], rounded to the nearest
    binary64 (ties to even), with the sign [s]: the integer quotient is
    taken with enough bits, the remainder gives the rounding direction. *)
Definition div_nearest (s : bool) (n : Z) (d : positive) : float :=
  match n with
  | Zpos _ =>
      let '(q, e, l) := SFdiv_core_binary prec emax n 0 (Zpos d) 0 in
      binary_round_aux prec emax s q e l
  | _ => S754_zero s
  end.

(** The float nearest to an integer, as the conversion of an [int] operand
    computes it. *)
Definition float_of_Z (z : Z) : float := binary_normalize prec emax z 0 false.

(** The integer nearest to [n / d], ties to even ([0 <= n], [0 < d]). *)
Definition round_half_even (n : Z) (d : Z) : Z :=
  let q := n / d in
  let r := n mod d in
  match (2 * r) ?= d with
  | Lt => q
  | Gt => q + 1
  | Eq => if Z.even q then q else q + 1
  end.

(** The integer nearest to [100 * m * 2^e], ties to even: the digits of the
    two-decimal rounding of [m * 2^e]. *)
Definition hundredths (m : positive) (e : Z) : Z :=
  match e with
  | Zneg p => round_half_even (Zpos m * 100) (Z.pow_pos 2 p)
  | _ => Zpos m * 100 * 2 ^ e
  end.

(** [round(x, 2)] on a float: infinities and NaN are returned as they are;
    otherwise the exact value of [x] is rounded to two decimals (ties to
    even) and that decimal is converted back to the nearest float; the
    sign of [x] is kept, also on a zero result. *)
Definition fround2 (x : float) : float :=
  match x with
  | S754_finite s m e => div_nearest s (hundredths m e) 100
  | _ => x
  end.

(** A Python number as the script holds it: the literals are [int]s, the
    form fields and everything computed from them are [float]s. *)
Inductive pyval : Type :=
| PyInt (z : Z)
| PyFloat (f : float).

(** Conversion of an operand of mixed arithmetic to a float. *)
Definition as_double (v : pyval) : result float :=
  match v with
  | PyFloat f => Ok f
  | PyInt z =>
      let f := float_of_Z z in
      if is_infinite f then Raise OverflowError else Ok f
  end.

(** [a - b] *)
Definition py_sub (a b : pyval) : result pyval :=
  match a, b with
  | PyInt x, PyInt y => Ok (PyInt (x - y))
  | _, _ =>
      x <- as_double a ;;
      y <- as_double b ;;
      Ok (PyFloat (fsub x y))
  end.

(** [a * b] *)
Definition py_mul (a b : pyval) : result pyval :=
  match a, b with
  | PyInt x, PyInt y => Ok (PyInt (x * y))
  | _, _ =>
      x <- as_double a ;;
      y <- as_double b ;;
      Ok (PyFloat (fmul x y))
  end.

(** [a / b]: true division; a zero divisor raises. *)
Definition py_truediv (a b : pyval) : result pyval :=
  match a, b with
  | PyInt x, PyInt y =>
      match y with
      | Z0 => Raise ZeroDivisionError
      | Zpos d | Zneg d =>
          let f := div_nearest (xorb (x <? 0) (y <? 0)) (Z.abs x) d in
          if is_infinite f then Raise OverflowError else Ok (PyFloat f)
      end
  | _, _ =>
      x <- as_double a ;;
      y <- as_double b ;;
      if is_zero y then Raise ZeroDivisionError else Ok (PyFloat (fdiv x y))
  end.

(** Truth value of a number: [x != 0]. *)
Definition py_bool (v : pyval) : bool :=
  match v with
  | PyInt z => negb (z =? 0)
  | PyFloat f => negb (is_zero f)
  end.

(** [round(v, 2)]: an [int] is returned as it is. *)
Definition py_round2 (v : pyval) : pyval :=
  match v with
  | PyInt z => PyInt z
  | PyFloat f => PyFloat (fround2 f)
  end.

(** Exact comparison of a float with an integer ([None] on NaN). *)
Definition compare_float_Z (f : float) (z : Z) : option comparison :=
  match f with
  | S754_nan => None
  | S754_infinity s => Some (if s then Lt else Gt)
  | S754_zero _ => Some (0 ?= z)
  | S754_finite s m e =>
      let sm := if s then Zneg m else Zpos m in
      match e with
      | Zneg p => Some (sm ?= z * Z.pow_pos 2 p)
      | _ => Some (sm * 2 ^ e ?= z)
      end
  end.

(** [a < b] *)
Definition py_lt (a b : pyval) : bool :=
  match a, b with
  | PyInt x, PyInt y => x <? y
  | PyFloat f, PyInt y =>
      match compare_float_Z f y with Some Lt => true | _ => false end
  | PyInt x, PyFloat g =>
      match compare_float_Z g x with Some Gt => true | _ => false end
  | PyFloat f, PyFloat g => SFltb f g
  end.

(** The exact rational value of a float (0 on infinities and NaN). *)
Definition F2Q (f : float) : Q :=
  match f with
  | S754_finite s m e =>
      let sm := if s then Zneg m else Zpos m in
      match e with
      | Zneg p => Qmake sm (Pos.pow 2 p)
      | _ => inject_Z (sm * 2 ^ e)
      end
  | _ => 0%Q
  end.

(** The float a decimal literal [n / 10^k] denotes. *)
Definition decimal (n : Z) (k : positive) : float :=
  div_nearest (n <? 0) (Z.abs n) (Pos.pow 10 k).

(** [x - y] is finite and carries no rounding error. *)
Definition exact_sub (x y : float) : bool :=
  is_finite (fsub x y) && Qeq_bool (F2Q (fsub x y)) (F2Q x - F2Q y).

(** The float [x] is the integer [z], held with a non-positive exponent. *)
Definition whole (x : float) (z : Z) : Prop :=
  match x with
  | S754_zero _ => z = 0
  | S754_finite s m e =>
      e <= 0 /\ (if s then Zneg m else Zpos m) = z * 2 ^ (- e)
  | _ => False
  end.

(** The integer a float is, when it is one of magnitude below [2^53]. *)
Definition whole_number (x : float) : option Z :=
  match x with
  | S754_zero _ => Some 0
  | S754_finite s m e =>
      match e with
      | Zpos _ => None
      | _ =>
          if Zpos m mod 2 ^ (- e) =? 0
          then Some (if s then - (Zpos m / 2 ^ (- e)) else Zpos m / 2 ^ (- e))
          else None
      end
  | _ => None
  end.

(** A price that is a whole number of magnitude below [2^52]. *)
Definition whole_price (x : float) : bool :=
  match whole_number x with
  | Some z => Z.abs z <? 2 ^ 52
  | None => false
  end.

(** [f <= 0]: a zero of either sign, a negative number or minus infinity. *)
Definition nonpositive (f : float) : bool :=
  match f with
  | S754_zero _ => true
  | S754_finite s _ _ => s
  | S754_infinity s => s
  | S754_nan => false
  end.

(** [0 < f < inf] *)
Definition positive_finite (f : float) : bool :=
  match f with
  | S754_finite false _ _ => true
  | _ => false
  end.

(** A value of binary64: the mantissa is canonical and the exponent in
    range, as for every float Python holds. *)
Definition well_formed (f : float) : bool := valid_binary prec emax f.

(** [x <= y] on floats. *)
Definition fle (x y : float) : bool := SFleb x y.

(** The float 1.0. *)
Definition one : float := float_of_Z 1.

End PyNum.

(** ** The script *)

Module App.
Import PyNum.

(** One entry of [actors]: the dict [{"name": ..., "cost": ..., "revenue":
    ...}] built from the form; [st.number_input] without bounds yields
    floats. *)
Record actor : Type := {
  name : string;
  cost : float;
  revenue : float
}.

(** One entry of [data]: the dict appended by the computation loop. *)
Record row : Type := {
  Actor : string;
  Buying_Price : pyval;
  Selling_Price : pyval;
  Gross_Income : pyval;
  Gross_Margin : pyval;
  Added_Value : pyval;
  Value_Share : pyval
}.

(** The variables one iteration of the loop assigns before it appends. *)
Record locals : Type := {
  gross_income : pyval;
  gross_margin : pyval;
  added_value : pyval;
  value_share : pyval
}.

(** The variables the loop carries from one iteration to the next. *)
Record state : Type := {
  data : list row;
  prev_revenue : pyval
}.

(** [l[-1]]: raises on the empty list. *)
Fixpoint last_item {A : Type} (l : list A) : result A :=
  match l with
  | [] => Raise IndexError
  | [x] => Ok x
  | _ :: rest => last_item rest
  end.

(** Truth value of a list: non-empty. *)
Definition list_bool {A : Type} (l : list A) : bool :=
  match l with [] => false | _ :: _ => true end.

(** [retail_price = actors[-1]["revenue"] if actors else 1] *)
Definition retail_price (actors : list actor) : result pyval :=
  if list_bool actors
  then a <- last_item actors ;; Ok (PyFloat (revenue a))
  else Ok (PyInt 1).

(** Lines 34 to 37: the four assignments of one iteration. *)
Definition metrics (retail_price prev_revenue : pyval) (a : actor)
  : result locals :=
  gi <- py_sub (PyFloat (revenue a)) (PyFloat (cost a)) ;;
  gm <- (if py_bool (PyFloat (revenue a))
         then q <- py_truediv gi (PyFloat (revenue a)) ;; py_mul q (PyInt 100)
         else Ok (PyInt 0)) ;;
  av <- py_sub (PyFloat (revenue a)) prev_revenue ;;
  vs <- (if py_bool retail_price
         then q <- py_truediv av retail_price ;; py_mul q (PyInt 100)
         else Ok (PyInt 0)) ;;
  Ok {| gross_income := gi; gross_margin := gm;
        added_value := av; value_share := vs |}.

(** Lines 39 to 47: the dict appended to [data]. *)
Definition make_row (a : actor) (l : locals) : row :=
  {| Actor := name a;
     Buying_Price := PyFloat (cost a);
     Selling_Price := PyFloat (revenue a);
     Gross_Income := gross_income l;
     Gross_Margin := py_round2 (gross_margin l);
     Added_Value := py_round2 (added_value l);
     Value_Share := py_round2 (value_share l) |}.

(** The body of [for actor in actors]. *)
Definition loop_body (retail_price : pyval) (st : state) (a : actor)
  : result state :=
  l <- metrics retail_price (prev_revenue st) a ;;
  Ok {| data := data st ++ [make_row a l];
        prev_revenue := PyFloat (revenue a) |}.

Fixpoint for_each (retail_price : pyval) (actors : list actor) (st : state)
  : result state :=
  match actors with
  | [] => Ok st
  | a :: rest =>
      st' <- loop_body retail_price st a ;;
      for_each retail_price rest st'
  end.

(** Lines 29 and 30: [data = []] and [prev_revenue = 0]. *)
Definition initial : state := {| data := []; prev_revenue := PyInt 0 |}.

(** Lines 29 to 49. *)
Definition computation (actors : list actor) : result state :=
  rp <- retail_price actors ;;
  for_each rp actors initial.

(** The list [data] the computation leaves: what the specification calls
    [computeMetrics]. *)
Definition computeMetrics (actors : list actor) : result (list row) :=
  st <- computation actors ;; Ok (data st).

(** *** Recommendations (lines 87 to 92) *)

Section Recommendations.

(** How an f-string prints a number ([str] of an [int] or a [float]): part
    of the language, taken as a parameter. *)
Variable py_str : pyval -> string.

Definition low_margin_message (r : row) : string :=
  ("Actor '" ++ Actor r ++ "' has a low gross margin ("
     ++ py_str (Gross_Margin r)
     ++ "%). Consider reducing input costs or increasing selling price.")%string.

Definition small_share_message (r : row) : string :=
  ("Actor '" ++ Actor r ++ "' has a small value share ("
     ++ py_str (Value_Share r)
     ++ "%). Consider improving value addition strategies.")%string.

(** The body of [for row in data]: two independent [if]s, each appending. *)
Definition recommend (recs : list string) (r : row) : list string :=
  let recs1 :=
    if py_lt (Gross_Margin r) (PyInt 20)
    then recs ++ [low_margin_message r] else recs in
  if py_lt (Value_Share r) (PyInt 10)
  then recs1 ++ [small_share_message r] else recs1.

Definition recommendations (data : list row) : list string :=
  fold_left recommend data [].

(** The warnings of one record as section 4.2 of the specification gives
    them: the low-margin one first, then the low-share one. *)
Definition spec_warnings (r : row) : list string :=
  (if py_lt (Gross_Margin r) (PyInt 20) then [low_margin_message r] else [])
  ++ (if py_lt (Value_Share r) (PyInt 10) then [small_share_message r] else []).

End Recommendations.

(** *** Definitions used to state the properties *)

(** The float operand [100] of [* 100]. *)
Definition hundred : float := float_of_Z 100.

(** [x / y * 100] on floats. *)
Definition percent (x y : float) : float := fmul (fdiv x y) hundred.

(** The float a number stands for in mixed arithmetic. *)
Definition to_float (v : pyval) : float :=
  match v with
  | PyFloat f => f
  | PyInt z => float_of_Z z
  end.

(** The numbers the loop variables [prev_revenue] and [retail_price] can
    hold: a float, or one of the literals [0] and [1]. *)
Definition literal_or_float (v : pyval) : Prop :=
  match v with
  | PyFloat _ => True
  | PyInt z => z = 0 \/ z = 1
  end.

(** The metrics of one actor as section 4.1 of the specification gives
    them (steps a to d), on binary64. *)
Definition spec_metrics (retail_price prev_revenue : pyval) (a : actor)
  : locals :=
  let grossIncome := fsub (revenue a) (cost a) in
  let addedValue := fsub (revenue a) (to_float prev_revenue) in
  {| gross_income := PyFloat grossIncome;
     gross_margin :=
       if is_zero (revenue a) then PyInt 0
       else PyFloat (percent grossIncome (revenue a));
     added_value := PyFloat addedValue;
     value_share :=
       if py_bool retail_price
       then PyFloat (percent addedValue (to_float retail_price))
       else PyInt 0 |}.

(** The value of [prev_revenue] when iteration [i] starts. *)
Definition prev_at (actors : list actor) (i : nat) : pyval :=
  match i with
  | O => PyInt 0
  | S j =>
      match nth_error actors j with
      | Some b => PyFloat (revenue b)
      | None => PyInt 0
      end
  end.

(** The variables of every iteration, in order: the loop, recording its
    locals instead of appending the row. *)
Fixpoint iterations (retail_price prev_revenue : pyval)
  (actors : list actor) : result (list locals) :=
  match actors with
  | [] => Ok []
  | a :: rest =>
      l <- metrics retail_price prev_revenue a ;;
      ls <- iterations retail_price (PyFloat (revenue a)) rest ;;
      Ok (l :: ls)
  end.

(** The same list with every iteration written as the specification gives
    it. *)
Fixpoint spec_iterations (retail_price prev_revenue : pyval)
  (actors : list actor) : list locals :=
  match actors with
  | [] => []
  | a :: rest =>
      spec_metrics retail_price prev_revenue a
        :: spec_iterations retail_price (PyFloat (revenue a)) rest
  end.

(** The value of [prev_revenue] when the loop is left. *)
Definition prev_after (prev_revenue : pyval) (actors : list actor) : pyval :=
  fold_left (fun _ a => PyFloat (revenue a)) actors prev_revenue.

(** The rows appended for the actors, given the locals of each iteration. *)
Fixpoint rows_of (actors : list actor) (ls : list locals) : list row :=
  match actors, ls with
  | a :: rest, l :: ls' => make_row a l :: rows_of rest ls'
  | _, _ => []
  end.

Definition pyval_is_nan (v : pyval) : bool :=
  match v with
  | PyFloat f => is_nan f
  | PyInt _ => false
  end.

(** Both form fields of the actor are finite numbers. *)
Definition finite_actor (a : actor) : bool :=
  is_finite (cost a) && is_finite (revenue a).

(** The exact value of a number. *)
Definition value (v : pyval) : Q :=
  match v with
  | PyInt z => inject_Z z
  | PyFloat f => F2Q f
  end.

(** [n] is an integer nearest to [100 * m * 2^e]: at most one half away
    (stated on integers: for [e = -p], [2 * |n * 2^p - 100 * m| <= 2^p]). *)
Definition nearest_hundredth (m : positive) (e : Z) (n : Z) : Prop :=
  match e with
  | Zneg p => 2 * Z.abs (n * Z.pow_pos 2 p - 100 * Zpos m) <= Z.pow_pos 2 p
  | _ => n = 100 * Zpos m * 2 ^ e
  end.

(** [y] is [x] rounded to two decimal places: the float nearest to [n / 100]
    with the sign of [x], for an integer [n] nearest to [100 * |x|]; an
    infinity, a NaN and a zero are left as they are. *)
Definition rounded_float (x y : float) : Prop :=
  match x with
  | S754_finite s m e =>
      exists n : Z, 0 <= n /\ nearest_hundredth m e n /\ y = div_nearest s n 100
  | _ => y = x
  end.

(** The same on numbers: an [int] is left as it is. *)
Definition rounded (v w : pyval) : Prop :=
  match v, w with
  | PyInt z, PyInt z' => z' = z
  | PyFloat x, PyFloat y => rounded_float x y
  | _, _ => False
  end.

(** The cost and revenue columns of the input, names dropped. *)
Definition prices (actors : list actor) : list (float * float) :=
  map (fun a => (cost a, revenue a)) actors.

(** The numeric columns of a row, name dropped. *)
Definition numbers (r : row) : list pyval :=
  [Buying_Price r; Selling_Price r; Gross_Income r; Gross_Margin r;
   Added_Value r; Value_Share r].

(** The two threshold tests of the recommendation loop on a row. *)
Definition thresholds (r : row) : bool * bool :=
  (py_lt (Gross_Margin r) (PyInt 20), py_lt (Value_Share r) (PyInt 10)).

(** The worked example of the specification: farmer, processor, retailer. *)
Definition farmer : actor :=
  {| name := "F"; cost := float_of_Z 0; revenue := float_of_Z 10 |}.
Definition processor : actor :=
  {| name := "P"; cost := float_of_Z 10; revenue := float_of_Z 25 |}.
Definition retailer : actor :=
  {| name := "R"; cost := float_of_Z 25; revenue := float_of_Z 40 |}.

Definition example_actors : list actor := [farmer; processor; retailer].

(** The rows the specification lists for it; [decimal n 2] is the float
    written [n / 100] with two decimals. *)
Definition example_rows : list row :=
  [ {| Actor := "F";
       Buying_Price := PyFloat (float_of_Z 0);
       Selling_Price := PyFloat (float_of_Z 10);
       Gross_Income := PyFloat (float_of_Z 10);
       Gross_Margin := PyFloat (decimal 10000 2);
       Added_Value := PyFloat (float_of_Z 10);
       Value_Share := PyFloat (decimal 2500 2) |};
    {| Actor := "P";
       Buying_Price := PyFloat (float_of_Z 10);
       Selling_Price := PyFloat (float_of_Z 25);
       Gross_Income := PyFloat (float_of_Z 15);
       Gross_Margin := PyFloat (decimal 6000 2);
       Added_Value := PyFloat (float_of_Z 15);
       Value_Share := PyFloat (decimal 3750 2) |};
    {| Actor := "R";
       Buying_Price := PyFloat (float_of_Z 25);
       Selling_Price := PyFloat (float_of_Z 40);
       Gross_Income := PyFloat (float_of_Z 15);
       Gross_Margin := PyFloat (decimal 3750 2);
       Added_Value := PyFloat (float_of_Z 15);
       Value_Share := PyFloat (decimal 3750 2) |} ].

(** The exact values of the numeric columns of a row, as reduced
    fractions. *)
Definition exact_numbers (r : row) : list Q :=
  map (fun v => Qred (value v)) (numbers r).

(** A record with the given gross margin and value share. *)
Definition metric_row (n : string) (c s gi av : pyval) (gm vs : float) : row :=
  {| Actor := n; Buying_Price := c; Selling_Price := s; Gross_Income := gi;
     Gross_Margin := PyFloat gm; Added_Value := av; Value_Share := PyFloat vs |}.

(** Prices of either sign and zero: a loss-making actor that sells at 0,
    then one that is paid to take the goods. *)
Definition signed_actors : list actor :=
  [ {| name := "giver"; cost := decimal 450 2; revenue := float_of_Z 0 |};
    {| name := "taker"; cost := float_of_Z 0; revenue := decimal (-250) 2 |} ].

(** [x + y] on floats. *)
Definition fadd : float -> float -> float := SFadd prec emax.

(** The exact sum of a list of rationals. *)
Definition Qsum (l : list Q) : Q := fold_right Qplus 0%Q l.

(** The exact values of the [added_value]s and of the [value_share]s of the
    iterations, before the rows round them. *)
Definition added_values (ls : list locals) : list Q :=
  map (fun l => value (added_value l)) ls.

Definition value_shares (ls : list locals) : list Q :=
  map (fun l => value (value_share l)) ls.

(** Every revenue is finite and every difference [revenue - prev_revenue]
    the loop takes is exact. *)
Fixpoint exact_differences (prev : float) (actors : list actor) : bool :=
  match actors with
  | [] => true
  | a :: rest =>
      is_finite (revenue a) && exact_sub (revenue a) prev
      && exact_differences (revenue a) rest
  end.

(** Two prices written with two decimals whose difference is rounded:
    0.03 and 0.30. *)
Definition rounding_actors : list actor :=
  [ {| name := "a"; cost := float_of_Z 0; revenue := decimal 3 2 |};
    {| name := "b"; cost := decimal 3 2; revenue := decimal 30 2 |} ].

(** The worked example under other names. *)
Definition renamed_actors : list actor :=
  [ {| name := "farm"; cost := float_of_Z 0; revenue := float_of_Z 10 |};
    {| name := "mill"; cost := float_of_Z 10; revenue := float_of_Z 25 |};
    {| name := "shop"; cost := float_of_Z 25; revenue := float_of_Z 40 |} ].

(** *** The notices under the recommendations (lines 94 to 98) *)

(** A call of [st.warning] or of [st.success], with its text. *)
Inductive notice : Type :=
| warning (text : string)
| success (text : string).

(** [if recommendations: for rec in recommendations: st.warning(rec)
    else: st.success(...)]: the calls made, in order. *)
Definition show_recommendations (recommendations : list string) : list notice :=
  if list_bool recommendations
  then fold_left (fun shown rec => shown ++ [warning rec]) recommendations []
  else [success "All actors have reasonable margins and value shares."].

(** *** The form (lines 20 to 26) *)

(** [str(i)] of a non-negative [int]. *)
Definition str_of_nat (i : nat) : string :=
  NilEmpty.string_of_uint (Nat.to_uint i).

(** The widget keys [f"name_{i}"], [f"cost_{i}"] and [f"revenue_{i}"]. *)
Definition name_key (i : nat) : string := ("name_" ++ str_of_nat i)%string.
Definition cost_key (i : nat) : string := ("cost_" ++ str_of_nat i)%string.
Definition revenue_key (i : nat) : string := ("revenue_" ++ str_of_nat i)%string.

Section Form.

(** What the widgets return, by key: the state of the form, which is the
    browser's. *)
Variable text_input : string -> string.
Variable number_input : string -> float.

(** The body of [for i in range(num_actors)]: one actor appended. *)
Definition add_actor (actors : list actor) (i : nat) : list actor :=
  actors ++ [ {| name := text_input (name_key i);
                 cost := number_input (cost_key i);
                 revenue := number_input (revenue_key i) |} ].

(** Lines 20 to 26, for a number of actors that is not negative. *)
Definition collect_actors (num_actors : nat) : list actor :=
  fold_left add_actor (seq 0 num_actors) [].

End Form.

(** The keys of all the widgets the form creates for its actors. *)
Definition widget_keys (num_actors : nat) : list string :=
  flat_map (fun i => [name_key i; cost_key i; revenue_key i]) (seq 0 num_actors).

(** *** More definitions used to state properties *)

(** The columns of a row that do not depend on the retail price. *)
Definition upstream_columns (r : row) : string * list pyval :=
  (Actor r, [Buying_Price r; Selling_Price r; Gross_Income r; Gross_Margin r;
             Added_Value r]).

(** Every actor buys at the price the actor before it sells at (the first
    one at [0.0]). *)
Fixpoint linked (prev : float) (actors : list actor) : Prop :=
  match actors with
  | [] => True
  | a :: rest => cost a = prev /\ linked (revenue a) rest
  end.

(** No numeric column of the row holds a NaN. *)
Definition nan_free (r : row) : bool :=
  forallb (fun v => negb (pyval_is_nan v)) (numbers r).

(** A record passes both threshold tests of the recommendation loop. *)
Definition passes (r : row) : bool :=
  negb (py_lt (Gross_Margin r) (PyInt 20))
  && negb (py_lt (Value_Share r) (PyInt 10)).

(** A chain with a dip: the second actor buys at 25 and sells at 5, below
    the farmer's 10. *)
Definition discounter : actor :=
  {| name := "D"; cost := float_of_Z 25; revenue := float_of_Z 5 |}.

Definition dip_actors : list actor := [farmer; discounter; retailer].

(** The form as it first renders: every price is 0.0. *)
Definition blank_actors : list actor :=
  [ {| name := ""; cost := pos_zero; revenue := pos_zero |};
    {| name := ""; cost := pos_zero; revenue := pos_zero |};
    {| name := ""; cost := pos_zero; revenue := pos_zero |} ].

End App.

(** ** Facts about binary64 operations *)

Module PyNumFacts.
Import PyNum.

Lemma iter_pos_invariant (A : Type) (P : A -> Prop) (f : A -> A) :
  (forall x, P x -> P (f x)) ->
  forall n x, P x -> P (iter_pos f n x).
Proof.
  intros Hf. induction n as [n IH | n IH | ]; intros x Hx; simpl.
  - apply IH, IH, Hf, Hx.
  - apply IH, IH, Hx.
  - apply Hf, Hx.
Qed.

Lemma shr_1_nonneg mrs : 0 <= shr_m mrs -> 0 <= shr_m (shr_1 mrs).
Proof.
  destruct mrs as [m r s]. simpl.
  destruct m as [ | [p | p | ] | p ]; simpl; intros H; lia.
Qed.

Lemma shr_nonneg mrs e n : 0 <= shr_m mrs -> 0 <= shr_m (fst (shr mrs e n)).
Proof.
  intros H. destruct n as [ | p | p ]; simpl; try exact H.
  apply (iter_pos_invariant _ (fun x => 0 <= shr_m x)); [ apply shr_1_nonneg | exact H ].
Qed.

Lemma shr_record_of_loc_m m l : shr_m (shr_record_of_loc m l) = m.
Proof. destruct l as [ | [ | | ] ]; reflexivity. Qed.

Lemma shr_fexp_nonneg m e l :
  0 <= m -> 0 <= shr_m (fst (shr_fexp prec emax m e l)).
Proof.
  intros H. unfold shr_fexp. apply shr_nonneg.
  rewrite shr_record_of_loc_m. exact H.
Qed.

Lemma round_nearest_even_nonneg m l : 0 <= m -> 0 <= round_nearest_even m l.
Proof.
  intros H. destruct l as [ | [ | | ] ]; simpl; try lia.
  destruct (Z.even m); lia.
Qed.

(** Rounding a non-negative mantissa never produces a NaN. *)
Lemma binary_round_aux_not_nan s m e l :
  0 <= m -> is_nan (binary_round_aux prec emax s m e l) = false.
Proof.
  intros H. unfold binary_round_aux.
  pose proof (shr_fexp_nonneg m e l H) as H1.
  destruct (shr_fexp prec emax m e l) as [mrs1 e1]. simpl in H1.
  pose proof (shr_fexp_nonneg _ e1 loc_Exact
                (round_nearest_even_nonneg _ (loc_of_shr_record mrs1) H1)) as H2.
  destruct (shr_fexp prec emax _ e1 loc_Exact) as [mrs2 e2]. simpl in H2.
  destruct (shr_m mrs2) as [ | p | p ]; try reflexivity.
  - destruct (e2 <=? emax - prec); reflexivity.
  - lia.
Qed.

Lemma binary_round_not_nan s m e :
  is_nan (binary_round prec emax s m e) = false.
Proof.
  unfold binary_round.
  destruct (shl_align m e _) as [mz ez].
  apply binary_round_aux_not_nan. lia.
Qed.

Lemma binary_normalize_not_nan m e sz :
  is_nan (binary_normalize prec emax m e sz) = false.
Proof.
  destruct m; simpl; auto using binary_round_not_nan.
Qed.

Lemma float_of_Z_not_nan z : is_nan (float_of_Z z) = false.
Proof. apply binary_normalize_not_nan. Qed.

Lemma div_core_nonneg m1 e1 m2 e2 :
  0 <= m1 -> 0 < m2 ->
  0 <= fst (fst (SFdiv_core_binary prec emax m1 e1 m2 e2)).
Proof.
  intros H1 H2. unfold SFdiv_core_binary.
  set (s := e1 - e2 - _).
  set (m' := match s with Z0 => m1 | Zpos _ => Z.shiftl m1 s | Zneg _ => 0 end).
  assert (Hm : 0 <= m').
  { subst m'. destruct s; try lia. apply Z.shiftl_nonneg. exact H1. }
  pose proof (Z.div_pos m' m2 Hm H2) as Hq.
  unfold Z.div in Hq.
  destruct (Z.div_eucl m' m2) as [q r]. exact Hq.
Qed.

Lemma div_nearest_not_nan s n d : is_nan (div_nearest s n d) = false.
Proof.
  unfold div_nearest. destruct n as [ | p | p ]; try reflexivity.
  pose proof (div_core_nonneg (Zpos p) 0 (Zpos d) 0 ltac:(lia) ltac:(lia)) as H.
  destruct (SFdiv_core_binary prec emax (Zpos p) 0 (Zpos d) 0) as [[q e] l].
  apply binary_round_aux_not_nan. exact H.
Qed.

(** [round(x, 2)] is a NaN only on a NaN. *)
Lemma fround2_not_nan x : is_nan x = false -> is_nan (fround2 x) = false.
Proof.
  destruct x; simpl; auto. intros _. apply div_nearest_not_nan.
Qed.

(** The difference of two finite floats is never a NaN. *)
Lemma fsub_not_nan x y :
  is_finite x = true -> is_finite y = true -> is_nan (fsub x y) = false.
Proof.
  destruct x as [sx | sx | | sx mx ex], y as [sy | sy | | sy my ey];
    simpl; try discriminate; intros _ _.
  - destruct sx, sy; reflexivity.
  - reflexivity.
  - reflexivity.
  - apply binary_normalize_not_nan.
Qed.

(** Dividing by a finite non-zero float yields a NaN only from a NaN. *)
Lemma fdiv_not_nan x y :
  is_nan x = false -> is_finite y = true -> is_zero y = false ->
  is_nan (fdiv x y) = false.
Proof.
  destruct x as [sx | sx | | sx mx ex], y as [sy | sy | | sy my ey];
    simpl; try discriminate; auto.
  intros _ _ _.
  pose proof (div_core_nonneg (Zpos mx) ex (Zpos my) ey ltac:(lia) ltac:(lia)) as H.
  unfold fdiv, SFdiv.
  destruct (SFdiv_core_binary prec emax (Zpos mx) ex (Zpos my) ey) as [[q e] l].
  apply binary_round_aux_not_nan. exact H.
Qed.

(** Multiplying by a finite non-zero float yields a NaN only from a NaN. *)
Lemma fmul_finite_not_nan x s m e :
  is_nan x = false -> is_nan (fmul x (S754_finite s m e)) = false.
Proof.
  destruct x as [sx | sx | | sx mx ex]; simpl; try discriminate; auto.
  intros _. apply binary_round_aux_not_nan. lia.
Qed.

(** Subtracting [0.0] changes nothing, whatever the float. *)
Lemma fsub_zero x : fsub x pos_zero = x.
Proof. destruct x as [[ | ] | | | ]; reflexivity. Qed.

Lemma is_zero_finite x :
  is_finite x = true -> is_zero x = false -> exists s m e, x = S754_finite s m e.
Proof.
  destruct x as [sx | sx | | sx mx ex]; simpl; try discriminate.
  intros _ _. eauto.
Qed.

(** *** Subtraction of whole numbers is exact *)

Lemma digits2_pos_bounds p :
  2 ^ (Zpos (digits2_pos p) - 1) <= Zpos p < 2 ^ Zpos (digits2_pos p).
Proof.
  induction p as [p IH | p IH | ]; cbn [digits2_pos].
  - rewrite Pos2Z.inj_succ.
    replace (Z.succ (Zpos (digits2_pos p)) - 1) with (Z.succ (Zpos (digits2_pos p) - 1)) by lia.
    rewrite !Z.pow_succ_r by lia. lia.
  - rewrite Pos2Z.inj_succ.
    replace (Z.succ (Zpos (digits2_pos p)) - 1) with (Z.succ (Zpos (digits2_pos p) - 1)) by lia.
    rewrite !Z.pow_succ_r by lia. lia.
  - cbn. lia.
Qed.

Lemma digits_unique (a b n : Z) :
  0 < a -> 0 < b ->
  2 ^ (a - 1) <= n < 2 ^ a -> 2 ^ (b - 1) <= n < 2 ^ b -> a = b.
Proof.
  intros Ha Hb [H1 H2] [H3 H4].
  assert (a - 1 < b) by (apply (Z.pow_lt_mono_r_iff 2); lia).
  assert (b - 1 < a) by (apply (Z.pow_lt_mono_r_iff 2); lia).
  lia.
Qed.

(** digits of q * 2^k *)
Lemma digits_shift (m q : positive) (k : Z) :
  0 <= k -> Zpos m = Zpos q * 2 ^ k ->
  Zpos (digits2_pos m) = Zpos (digits2_pos q) + k.
Proof.
  intros Hk Hm.
  pose proof (digits2_pos_bounds m) as Bm.
  pose proof (digits2_pos_bounds q) as Bq.
  apply (digits_unique _ _ (Zpos m)); try lia.
  rewrite Hm.
  replace (Zpos (digits2_pos q) + k - 1) with ((Zpos (digits2_pos q) - 1) + k) by lia.
  rewrite !Z.pow_add_r by lia.
  assert (0 < 2 ^ k) by (apply Z.pow_pos_nonneg; lia).
  nia.
Qed.

Lemma iter_shr_1_exact n :
  forall a : positive,
    iter_pos shr_1 n {| shr_m := 2 ^ Zpos n * Zpos a; shr_r := false; shr_s := false |}
    = {| shr_m := Zpos a; shr_r := false; shr_s := false |}.
Proof.
  assert (step : forall a : positive,
             shr_1 {| shr_m := 2 * Zpos a; shr_r := false; shr_s := false |}
             = {| shr_m := Zpos a; shr_r := false; shr_s := false |})
    by reflexivity.
  assert (pw : forall n, exists w : positive, 2 ^ Zpos n = Zpos w).
  { intros m. pose proof (Z.pow_pos_nonneg 2 (Zpos m) ltac:(lia) ltac:(lia)).
    destruct (2 ^ Zpos m) as [ | w | w ]; try lia. eauto. }
  induction n as [n IH | n IH | ]; intros a; cbn [iter_pos].
  - destruct (pw n) as [w Hw].
    replace (2 ^ Zpos n~1 * Zpos a) with (2 * Zpos (w * (w * a))).
    2:{ rewrite (Pos2Z.inj_xI n).
        replace (2 * Zpos n + 1) with (Zpos n + Zpos n + 1) by lia.
        rewrite !Z.pow_add_r, Hw by lia. change (2 ^ 1) with 2. lia. }
    rewrite step.
    replace (Zpos (w * (w * a))) with (2 ^ Zpos n * Zpos (w * a)) by (rewrite Hw; lia).
    rewrite IH.
    replace (Zpos (w * a)) with (2 ^ Zpos n * Zpos a) by (rewrite Hw; lia).
    apply IH.
  - destruct (pw n) as [w Hw].
    replace (2 ^ Zpos n~0 * Zpos a) with (2 ^ Zpos n * Zpos (w * a)).
    2:{ rewrite (Pos2Z.inj_xO n).
        replace (2 * Zpos n) with (Zpos n + Zpos n) by lia.
        rewrite !Z.pow_add_r, Hw by lia. lia. }
    rewrite IH.
    replace (Zpos (w * a)) with (2 ^ Zpos n * Zpos a) by (rewrite Hw; lia).
    apply IH.
  - apply step.
Qed.

Lemma iter_xO_value d : forall m, Zpos (Pos.iter xO m d) = Zpos m * 2 ^ Zpos d.
Proof.
  induction d as [ | d IH ] using Pos.peano_ind; intros m.
  - cbn. lia.
  - rewrite Pos.iter_succ, Pos2Z.inj_xO, IH, Pos2Z.inj_succ, Z.pow_succ_r by lia. lia.
Qed.

Lemma shl_align_value m e e' :
  e' <= e ->
  Zpos (fst (shl_align m e e')) = Zpos m * 2 ^ (e - e') /\
  snd (shl_align m e e') = e'.
Proof.
  intros H. unfold shl_align.
  destruct (e' - e) as [ | d | d ] eqn:E; cbn [fst snd].
  - replace (e - e') with 0 by lia. cbn. lia.
  - lia.
  - rewrite iter_xO_value. replace (e - e') with (Zpos d) by lia. auto.
Qed.

Section Whole.

(** [q]: a positive integer of at most 53 bits; [t]: its canonical exponent. *)
Variable q : positive.
Hypothesis Hq : Zpos q < 2 ^ 53.

Let t : Z := Zpos (digits2_pos q) - 53.

Lemma whole_digits : 1 <= Zpos (digits2_pos q) <= 53.
Proof.
  pose proof (digits2_pos_bounds q) as [B _].
  assert (Zpos (digits2_pos q) - 1 < 53) by (apply (Z.pow_lt_mono_r_iff 2); lia).
  lia.
Qed.

Lemma whole_fexp : fexp prec emax (Zpos (digits2_pos q)) = t.
Proof. pose proof whole_digits. unfold fexp, emin, prec, emax, t. lia. Qed.

Lemma whole_mantissa : exists a : positive, Zpos a = Zpos q * 2 ^ (- t).
Proof.
  pose proof whole_digits.
  assert (0 < 2 ^ (- t)) by (apply Z.pow_pos_nonneg; unfold t; lia).
  destruct (Zpos q * 2 ^ (- t)) as [ | a | a ] eqn:E; try lia. eauto.
Qed.

Lemma shr_fexp_whole (mz a : positive) (e : Z) :
  e <= t -> Zpos mz = Zpos q * 2 ^ (- e) -> Zpos a = Zpos q * 2 ^ (- t) ->
  shr_fexp prec emax (Zpos mz) e loc_Exact
  = ({| shr_m := Zpos a; shr_r := false; shr_s := false |}, t).
Proof.
  intros He Hmz Ha. pose proof whole_digits as Hd.
  unfold shr_fexp. cbn [Zdigits2 shr_record_of_loc].
  rewrite (digits_shift mz q (- e)) by (unfold t in He; lia || exact Hmz).
  replace (Zpos (digits2_pos q) + - e + e) with (Zpos (digits2_pos q)) by lia.
  rewrite whole_fexp. unfold shr.
  destruct (t - e) as [ | n | n ] eqn:E; try lia.
  - assert (e = t) by lia. subst e. f_equal. f_equal. lia.
  - replace (Zpos mz) with (2 ^ Zpos n * Zpos a).
    2:{ rewrite Hmz, Ha, <- E. rewrite Z.mul_comm, <- Z.mul_assoc, <- Z.pow_add_r by (unfold t in *; lia).
        f_equal. f_equal. lia. }
    rewrite iter_shr_1_exact. f_equal. lia.
Qed.

Lemma binary_round_aux_whole s (mz a : positive) (e : Z) :
  e <= t -> Zpos mz = Zpos q * 2 ^ (- e) -> Zpos a = Zpos q * 2 ^ (- t) ->
  binary_round_aux prec emax s (Zpos mz) e loc_Exact = S754_finite s a t.
Proof.
  intros He Hmz Ha. pose proof whole_digits as Hd.
  unfold binary_round_aux.
  rewrite (shr_fexp_whole mz a e He Hmz Ha).
  cbn [shr_m loc_of_shr_record round_nearest_even].
  rewrite (shr_fexp_whole a a t (Z.le_refl t) Ha Ha).
  cbn [shr_m].
  replace (t <=? emax - prec) with true; [ reflexivity | ].
  symmetry. apply Z.leb_le. unfold t, emax, prec. lia.
Qed.

Lemma binary_round_whole s (m0 a : positive) (k : Z) :
  0 <= k -> Zpos m0 = Zpos q * 2 ^ k -> Zpos a = Zpos q * 2 ^ (- t) ->
  binary_round prec emax s m0 (- k) = S754_finite s a t.
Proof.
  intros Hk Hm0 Ha. pose proof whole_digits as Hd.
  unfold binary_round.
  rewrite (digits_shift m0 q k Hk Hm0).
  replace (Zpos (digits2_pos q) + k + - k) with (Zpos (digits2_pos q)) by lia.
  rewrite whole_fexp.
  destruct (Z_le_gt_dec t (- k)) as [Hle | Hgt].
  - destruct (shl_align_value m0 (- k) t Hle) as [Hv He].
    destruct (shl_align m0 (- k) t) as [mz ez]. cbn [fst snd] in Hv, He. subst ez.
    apply binary_round_aux_whole; [ lia | | exact Ha ].
    rewrite Hv, Hm0, <- Z.mul_assoc, <- Z.pow_add_r by lia.
    f_equal. f_equal. lia.
  - unfold shl_align.
    destruct (t - - k) as [ | d | d ] eqn:E; try lia.
    apply binary_round_aux_whole; [ lia | | exact Ha ].
    rewrite Hm0. f_equal. f_equal. lia.
Qed.

End Whole.

Lemma whole_finite x z : whole x z -> is_finite x = true.
Proof. destruct x; simpl; tauto. Qed.

Lemma whole_value x z : whole x z -> (F2Q x == inject_Z z)%Q.
Proof.
  destruct x as [s | s | | s m e]; cbn [whole F2Q]; try tauto.
  - intros ->. reflexivity.
  - intros [He Hm]. destruct e as [ | p | p ]; try lia.
    + change (2 ^ (- 0)) with 1 in Hm. change (2 ^ 0) with 1.
      rewrite Z.mul_1_r in *. rewrite Hm. reflexivity.
    + rewrite Hm. unfold Qeq. cbn [Qnum Qden inject_Z].
      rewrite Pos2Z.inj_pow. change (- Zneg p) with (Zpos p). lia.
Qed.

Lemma binary_normalize_whole (M N k : Z) :
  0 <= k -> M = N * 2 ^ k -> Z.abs N < 2 ^ 53 ->
  whole (binary_normalize prec emax M (- k) false) N.
Proof.
  intros Hk HM HN.
  assert (Hp : 0 < 2 ^ k) by (apply Z.pow_pos_nonneg; lia).
  destruct M as [ | m0 | m0 ]; cbn [binary_normalize].
  - cbn. nia.
  - destruct N as [ | q | q ]; try lia.
    destruct (whole_mantissa q HN) as [a Ha].
    rewrite (binary_round_whole q HN false m0 a k Hk HM Ha).
    pose proof (whole_digits q HN). cbn [whole]. split; [ lia | exact Ha ].
  - destruct N as [ | q | q ]; try lia.
    assert (HN' : Zpos q < 2 ^ 53) by lia.
    destruct (whole_mantissa q HN') as [a Ha].
    assert (HM' : Zpos m0 = Zpos q * 2 ^ k) by lia.
    rewrite (binary_round_whole q HN' true m0 a k Hk HM' Ha).
    pose proof (whole_digits q HN'). cbn [whole]. split; [ lia | lia ].
Qed.

(** The difference of two whole floats is the whole float of the
    difference, when that has at most 53 bits. *)
Lemma fsub_whole x y zx zy :
  whole x zx -> whole y zy -> Z.abs (zx - zy) < 2 ^ 53 ->
  whole (fsub x y) (zx - zy).
Proof.
  destruct x as [sx | sx | | sx mx ex], y as [sy | sy | | sy my ey];
    cbn [whole]; try tauto.
  - intros -> -> _. destruct sx, sy; reflexivity.
  - intros -> [He Hm] _. cbn. split; [ exact He | ].
    destruct sy; cbn [negb]; lia.
  - intros [He Hm] -> _. cbn. split; [ exact He | ].
    rewrite Z.sub_0_r. exact Hm.
  - intros [Hex Hmx] [Hey Hmy] HN.
    unfold fsub, SFsub.
    destruct (shl_align_value mx ex (Z.min ex ey) ltac:(lia)) as [Hx _].
    destruct (shl_align_value my ey (Z.min ex ey) ltac:(lia)) as [Hy _].
    replace (Z.min ex ey) with (- (- Z.min ex ey)) at 3 by lia.
    apply binary_normalize_whole; [ lia | | exact HN ].
    rewrite Hx, Hy.
    assert (Ex : cond_Zopp sx (Zpos mx * 2 ^ (ex - Z.min ex ey))
                 = zx * 2 ^ (- Z.min ex ey)).
    { replace (- Z.min ex ey) with (- ex + (ex - Z.min ex ey)) by lia.
      rewrite Z.pow_add_r, Z.mul_assoc, <- Hmx by lia. destruct sx; cbn [cond_Zopp]; lia. }
    assert (Ey : cond_Zopp sy (Zpos my * 2 ^ (ey - Z.min ex ey))
                 = zy * 2 ^ (- Z.min ex ey)).
    { replace (- Z.min ex ey) with (- ey + (ey - Z.min ex ey)) by lia.
      rewrite Z.pow_add_r, Z.mul_assoc, <- Hmy by lia. destruct sy; cbn [cond_Zopp]; lia. }
    rewrite Ex, Ey. ring.
Qed.

Lemma fsub_whole_exact x y zx zy :
  whole x zx -> whole y zy -> Z.abs (zx - zy) < 2 ^ 53 ->
  exact_sub x y = true.
Proof.
  intros Hx Hy HN. pose proof (fsub_whole x y zx zy Hx Hy HN) as H.
  unfold exact_sub. rewrite (whole_finite _ _ H). cbn [andb].
  apply Qeq_bool_iff.
  rewrite (whole_value _ _ H), (whole_value _ _ Hx), (whole_value _ _ Hy).
  unfold Zminus. rewrite inject_Z_plus, inject_Z_opp. reflexivity.
Qed.

Lemma whole_number_whole x z : whole_number x = Some z -> whole x z.
Proof.
  destruct x as [s | s | | s m e]; cbn [whole_number whole]; try discriminate.
  - intros [= <-]. reflexivity.
  - assert (G : e <= 0 ->
                (if Zpos m mod 2 ^ (- e) =? 0
                 then Some (if s then - (Zpos m / 2 ^ (- e)) else Zpos m / 2 ^ (- e))
                 else None) = Some z ->
                e <= 0 /\ (if s then Zneg m else Zpos m) = z * 2 ^ (- e)).
    { intros He H. split; [ exact He | ].
      destruct (Zpos m mod 2 ^ (- e) =? 0) eqn:E; [ | discriminate ].
      apply Z.eqb_eq in E. injection H as <-.
      assert (0 < 2 ^ (- e)) by (apply Z.pow_pos_nonneg; lia).
      pose proof (Z.div_mod (Zpos m) (2 ^ (- e)) ltac:(lia)) as D.
      destruct s; lia. }
    destruct e as [ | p | p ]; try discriminate; apply G; lia.
Qed.

Lemma whole_price_whole x :
  whole_price x = true -> exists z, whole x z /\ Z.abs z < 2 ^ 52.
Proof.
  unfold whole_price. destruct (whole_number x) as [z | ] eqn:E; [ | discriminate ].
  intros H. apply Z.ltb_lt in H. exists z. split; [ apply whole_number_whole, E | exact H ].
Qed.

End PyNumFacts.

(** ** The computation loop refines the specification's algorithm *)

Module AppFacts.
Import PyNum PyNumFacts App.

Lemma as_double_literal v :
  literal_or_float v -> as_double v = Ok (to_float v).
Proof.
  destruct v as [z | f]; simpl; [ | reflexivity ].
  intros [-> | ->]; reflexivity.
Qed.

Lemma py_sub_float x v :
  py_sub (PyFloat x) v = (y <- as_double v ;; Ok (PyFloat (fsub x y))).
Proof. destruct v; reflexivity. Qed.

Lemma py_truediv_float x v :
  py_truediv (PyFloat x) v =
  (y <- as_double v ;;
   if is_zero y then Raise ZeroDivisionError else Ok (PyFloat (fdiv x y))).
Proof. destruct v; reflexivity. Qed.

Lemma py_mul_hundred x :
  py_mul (PyFloat x) (PyInt 100) = Ok (PyFloat (fmul x hundred)).
Proof. reflexivity. Qed.

(** A true [retail_price] is not a zero divisor. *)
Lemma py_bool_divisor v :
  literal_or_float v -> py_bool v = true -> is_zero (to_float v) = false.
Proof.
  destruct v as [z | f]; simpl.
  - intros [-> | ->]; [ discriminate | reflexivity ].
  - intros _ H. apply negb_true_iff. exact H.
Qed.

(** [x / v * 100] under its guard: never raises. *)
Lemma percent_guarded x v :
  literal_or_float v ->
  (if py_bool v
   then q <- py_truediv (PyFloat x) v ;; py_mul q (PyInt 100)
   else Ok (PyInt 0)) =
  Ok (if py_bool v then PyFloat (percent x (to_float v)) else PyInt 0).
Proof.
  intros Hv. destruct (py_bool v) eqn:Hb; [ | reflexivity ].
  rewrite py_truediv_float, (as_double_literal _ Hv). cbn [bind].
  rewrite (py_bool_divisor _ Hv Hb). cbn [bind].
  apply py_mul_hundred.
Qed.

(** One iteration never raises, and assigns what steps a to d prescribe. *)
Lemma metrics_refines rp prev a :
  literal_or_float rp -> literal_or_float prev ->
  metrics rp prev a = Ok (spec_metrics rp prev a).
Proof.
  intros Hrp Hprev. unfold metrics.
  rewrite !py_sub_float, (as_double_literal _ Hprev). cbn [as_double bind].
  rewrite (percent_guarded _ (PyFloat (revenue a)) I). cbn [bind].
  rewrite (percent_guarded _ rp Hrp). cbn [bind].
  unfold spec_metrics. cbn [py_bool to_float].
  destruct (is_zero (revenue a)); reflexivity.
Qed.

Lemma iterations_refines rp :
  literal_or_float rp ->
  forall actors prev,
    literal_or_float prev ->
    iterations rp prev actors = Ok (spec_iterations rp prev actors).
Proof.
  intros Hrp. induction actors as [ | a rest IH ]; intros prev Hprev; simpl.
  - reflexivity.
  - rewrite (metrics_refines _ _ a Hrp Hprev). simpl bind.
    rewrite (IH (PyFloat (revenue a)) I). reflexivity.
Qed.

(** The loop appends one row per iteration, built from that iteration's
    locals, and raises exactly when an iteration does. *)
Lemma for_each_iterations rp actors :
  forall st,
    for_each rp actors st =
    (ls <- iterations rp (prev_revenue st) actors ;;
     Ok {| data := data st ++ rows_of actors ls;
           prev_revenue := prev_after (prev_revenue st) actors |}).
Proof.
  induction actors as [ | a rest IH ]; intros [d p]; simpl.
  - rewrite app_nil_r. reflexivity.
  - unfold loop_body. simpl.
    destruct (metrics rp p a) as [l | e]; simpl; [ | reflexivity ].
    rewrite IH. simpl.
    destruct (iterations rp (PyFloat (revenue a)) rest) as [ls | e]; simpl;
      [ | reflexivity ].
    rewrite <- app_assoc. reflexivity.
Qed.

Lemma last_item_snoc (A : Type) (l : list A) (x : A) :
  last_item (l ++ [x]) = Ok x.
Proof.
  induction l as [ | y l IH ]; simpl; [ reflexivity | ].
  destruct (l ++ [x]) eqn:E; [ destruct l; discriminate | exact IH ].
Qed.

Lemma retail_price_snoc init a :
  retail_price (init ++ [a]) = Ok (PyFloat (revenue a)).
Proof.
  unfold retail_price. rewrite last_item_snoc.
  destruct init; reflexivity.
Qed.

Lemma snoc_cases (A : Type) (l : list A) :
  l = [] \/ exists init x, l = init ++ [x].
Proof.
  induction l as [ | y l IH ] using rev_ind; [ left; reflexivity | right; eauto ].
Qed.

Lemma retail_price_total actors :
  exists rp, retail_price actors = Ok rp /\ literal_or_float rp.
Proof.
  destruct (snoc_cases _ actors) as [-> | (init & a & ->)].
  - exists (PyInt 1). split; [ reflexivity | right; reflexivity ].
  - exists (PyFloat (revenue a)). split; [ apply retail_price_snoc | exact I ].
Qed.

Lemma prev_at_literal actors i : literal_or_float (prev_at actors i).
Proof.
  destruct i as [ | j ]; simpl; [ left; reflexivity | ].
  destruct (nth_error actors j); simpl; auto.
Qed.

Lemma length_spec_iterations rp actors :
  forall prev, length (spec_iterations rp prev actors) = length actors.
Proof. induction actors; intros prev; simpl; auto. Qed.

Lemma length_rows_of actors :
  forall ls, length ls = length actors -> length (rows_of actors ls) = length actors.
Proof.
  induction actors as [ | a rest IH ]; intros [ | l ls ]; simpl; try discriminate; auto.
Qed.

Lemma nth_error_rows_of actors :
  forall ls i a l,
    nth_error actors i = Some a -> nth_error ls i = Some l ->
    nth_error (rows_of actors ls) i = Some (make_row a l).
Proof.
  induction actors as [ | b rest IH ]; intros [ | m ls ] [ | i ] a l; simpl;
    try discriminate.
  - intros [= ->] [= ->]. reflexivity.
  - apply IH.
Qed.

(** Iteration [i] starts from the revenue of the actor before it. *)
Lemma nth_error_spec_iterations rp actors :
  forall i a,
    nth_error actors i = Some a ->
    nth_error (spec_iterations rp (PyInt 0) actors) i =
    Some (spec_metrics rp (prev_at actors i) a).
Proof.
  assert (G : forall actors prev i a,
             nth_error actors i = Some a ->
             nth_error (spec_iterations rp prev actors) i =
             Some (spec_metrics rp
                     (match i with
                      | O => prev
                      | S j => match nth_error actors j with
                               | Some b => PyFloat (revenue b)
                               | None => prev
                               end
                      end) a)).
  { clear actors. induction actors as [ | b rest IH ]; intros prev [ | i ] a; simpl;
      try discriminate.
    - intros [= ->]. reflexivity.
    - intros H. rewrite (IH (PyFloat (revenue b)) i a H).
      destruct i as [ | j ]; simpl; [ reflexivity | ].
      destruct (nth_error rest j) eqn:E; [ reflexivity | ].
      apply nth_error_None in E.
      assert (nth_error rest (S j) <> None) as Hn by (rewrite H; discriminate).
      apply nth_error_Some in Hn. lia. }
  intros i a H. rewrite (G actors (PyInt 0) i a H).
  destruct i as [ | j ]; simpl; [ reflexivity | ].
  destruct (nth_error actors j) eqn:E; [ reflexivity | ].
  apply nth_error_None in E.
  assert (nth_error actors (S j) <> None) as Hn by (rewrite H; discriminate).
  apply nth_error_Some in Hn. lia.
Qed.

(** The whole computation: it never raises; it leaves one row per actor, the
    row of position [i] built from the locals of iteration [i]. *)
Lemma computation_refines actors :
  exists rp,
    retail_price actors = Ok rp /\ literal_or_float rp /\
    iterations rp (PyInt 0) actors = Ok (spec_iterations rp (PyInt 0) actors) /\
    computation actors =
    Ok {| data := rows_of actors (spec_iterations rp (PyInt 0) actors);
          prev_revenue := prev_after (PyInt 0) actors |}.
Proof.
  destruct (retail_price_total actors) as (rp & Hrp & Hlit).
  exists rp. split; [ exact Hrp | ]. split; [ exact Hlit | ].
  assert (Hi := iterations_refines rp Hlit actors (PyInt 0) (or_introl eq_refl)).
  split; [ exact Hi | ].
  unfold computation. rewrite Hrp. cbn [bind].
  rewrite for_each_iterations. unfold initial. cbn [prev_revenue data].
  rewrite Hi. reflexivity.
Qed.

Lemma prev_after_snoc p l b : prev_after p (l ++ [b]) = PyFloat (revenue b).
Proof. unfold prev_after. rewrite fold_left_app. reflexivity. Qed.

Lemma prev_after_literal p l :
  literal_or_float p -> literal_or_float (prev_after p l).
Proof.
  intros Hp. destruct (snoc_cases _ l) as [-> | (init & b & ->)].
  - exact Hp.
  - rewrite prev_after_snoc. exact I.
Qed.

Lemma prev_at_length pre a post :
  prev_at (pre ++ a :: post) (length pre) = prev_after (PyInt 0) pre.
Proof.
  destruct (snoc_cases _ pre) as [-> | (init & b & ->)].
  - reflexivity.
  - rewrite prev_after_snoc, length_app. simpl length.
    replace (length init + 1)%nat with (S (length init)) by lia.
    simpl prev_at. rewrite <- app_assoc. simpl app.
    rewrite nth_error_app2 by lia. rewrite Nat.sub_diag. reflexivity.
Qed.

Lemma nth_error_middle (A : Type) (pre post : list A) (a : A) :
  nth_error (pre ++ a :: post) (length pre) = Some a.
Proof. rewrite nth_error_app2 by lia. rewrite Nat.sub_diag. reflexivity. Qed.

(** The state in which the loop reaches an actor, the locals it assigns
    there, and the row it leaves at that position. *)
Lemma iteration pre a post :
  exists rp st rows,
    retail_price (pre ++ a :: post) = Ok rp /\ literal_or_float rp /\
    for_each rp pre initial = Ok st /\
    prev_revenue st = prev_after (PyInt 0) pre /\
    metrics rp (prev_revenue st) a = Ok (spec_metrics rp (prev_revenue st) a) /\
    computeMetrics (pre ++ a :: post) = Ok rows /\
    length rows = length (pre ++ a :: post) /\
    nth_error rows (length pre) =
    Some (make_row a (spec_metrics rp (prev_revenue st) a)).
Proof.
  destruct (computation_refines (pre ++ a :: post)) as (rp & Hrp & Hlit & _ & Hc).
  exists rp.
  exists {| data := rows_of pre (spec_iterations rp (PyInt 0) pre);
            prev_revenue := prev_after (PyInt 0) pre |}.
  exists (rows_of (pre ++ a :: post)
            (spec_iterations rp (PyInt 0) (pre ++ a :: post))).
  cbn [prev_revenue].
  assert (Hp : literal_or_float (prev_after (PyInt 0) pre))
    by (apply prev_after_literal; left; reflexivity).
  repeat split; try assumption.
  - rewrite for_each_iterations. unfold initial. cbn [prev_revenue data].
    rewrite (iterations_refines rp Hlit pre (PyInt 0) (or_introl eq_refl)).
    reflexivity.
  - apply metrics_refines; assumption.
  - unfold computeMetrics. rewrite Hc. reflexivity.
  - apply length_rows_of, length_spec_iterations.
  - rewrite <- prev_at_length with (a := a) (post := post).
    apply nth_error_rows_of.
    + apply nth_error_middle.
    + apply nth_error_spec_iterations, nth_error_middle.
Qed.

End AppFacts.

(** ** Properties of the metric computation *)

Module Properties.
Import PyNum PyNumFacts App AppFacts.

Lemma percent_not_nan x y :
  is_nan x = false -> is_finite y = true -> is_zero y = false ->
  is_nan (percent x y) = false.
Proof.
  intros Hx Hy Hz. unfold percent.
  change hundred with (S754_finite false 7036874417766400 (-46)).
  apply fmul_finite_not_nan, fdiv_not_nan; assumption.
Qed.

Lemma round_half_even_nonneg n d : 0 <= n -> 0 < d -> 0 <= round_half_even n d.
Proof.
  intros Hn Hd. unfold round_half_even.
  pose proof (Z.div_pos n d Hn Hd) as Hq.
  destruct (2 * (n mod d) ?= d); [ destruct (Z.even (n / d)) | | ]; lia.
Qed.

Lemma round_half_even_close n d :
  0 < d -> 2 * Z.abs (round_half_even n d * d - n) <= d.
Proof.
  intros Hd. unfold round_half_even.
  pose proof (Z.div_mod n d ltac:(lia)) as E.
  pose proof (Z.mod_pos_bound n d Hd) as B.
  destruct (2 * (n mod d) ?= d) eqn:C.
  - apply Z.compare_eq in C. destruct (Z.even (n / d)); lia.
  - rewrite Z.compare_lt_iff in C. lia.
  - rewrite Z.compare_gt_iff in C. lia.
Qed.

Lemma pow_pos_positive p : 0 < Z.pow_pos 2 p.
Proof. change (0 < 2 ^ Zpos p). apply Z.pow_pos_nonneg; lia. Qed.

Lemma hundredths_nearest m e :
  0 <= hundredths m e /\ nearest_hundredth m e (hundredths m e).
Proof.
  destruct e as [ | p | p ]; unfold hundredths, nearest_hundredth.
  - split; lia.
  - assert (0 < 2 ^ Zpos p) by (apply pow_pos_positive).
    split; [ nia | lia ].
  - pose proof (pow_pos_positive p) as Hd.
    split.
    + apply round_half_even_nonneg; lia.
    + pose proof (round_half_even_close (Zpos m * 100) _ Hd) as H.
      replace (100 * Zpos m) with (Zpos m * 100) by lia. exact H.
Qed.

(** [round(v, 2)] rounds to two decimal places. *)
Lemma py_round2_rounded v : rounded v (py_round2 v).
Proof.
  destruct v as [z | [s | s | | s m e]]; simpl; try reflexivity.
  exists (hundredths m e).
  destruct (hundredths_nearest m e) as [H0 H1]. auto.
Qed.

(** C1. The retail price is the revenue of the last actor, and 1 on an empty
    list, where the result is empty.  At every actor the loop's
    [value_share] is [added_value / retail_price * 100] when the retail
    price is non-zero and [0] otherwise, and the row stores it rounded to
    two decimals. *)
Theorem retail_price_value_share :
  (retail_price [] = Ok (PyInt 1) /\ computeMetrics [] = Ok []) /\
  (forall init z, retail_price (init ++ [z]) = Ok (PyFloat (revenue z))) /\
  (forall pre a post,
      exists rp st l rows av,
        retail_price (pre ++ a :: post) = Ok rp /\
        for_each rp pre initial = Ok st /\
        metrics rp (prev_revenue st) a = Ok l /\
        computeMetrics (pre ++ a :: post) = Ok rows /\
        nth_error rows (length pre) = Some (make_row a l) /\
        added_value l = PyFloat av /\
        value_share l =
          (if py_bool rp then PyFloat (percent av (to_float rp)) else PyInt 0) /\
        Value_Share (make_row a l) =
          (if py_bool rp
           then PyFloat (fround2 (percent av (to_float rp)))
           else PyInt 0)).
Proof.
  split; [ split; reflexivity | ].
  split; [ exact retail_price_snoc | ].
  intros pre a post.
  destruct (iteration pre a post)
    as (rp & st & rows & Hrp & _ & Hst & _ & Hm & Hc & _ & Hn).
  exists rp, st, (spec_metrics rp (prev_revenue st) a), rows,
    (fsub (revenue a) (to_float (prev_revenue st))).
  repeat split; try assumption.
  - cbn [Value_Share make_row value_share spec_metrics].
    destruct (py_bool rp); reflexivity.
Qed.

(** C2. At every actor the loop's [gross_margin] is
    [gross_income / revenue * 100] when the revenue is non-zero and [0] when
    it is zero; nothing raises; and on finite prices neither [gross_margin]
    nor the rounded field of the row is a NaN. *)
Theorem gross_margin_guarded (pre : list actor) (a : actor) (post : list actor) :
  exists rp st l rows,
    retail_price (pre ++ a :: post) = Ok rp /\
    for_each rp pre initial = Ok st /\
    metrics rp (prev_revenue st) a = Ok l /\
    computeMetrics (pre ++ a :: post) = Ok rows /\
    nth_error rows (length pre) = Some (make_row a l) /\
    gross_income l = PyFloat (fsub (revenue a) (cost a)) /\
    gross_margin l =
      (if is_zero (revenue a) then PyInt 0
       else PyFloat (percent (fsub (revenue a) (cost a)) (revenue a))) /\
    Gross_Margin (make_row a l) =
      (if is_zero (revenue a) then PyInt 0
       else PyFloat (fround2 (percent (fsub (revenue a) (cost a)) (revenue a)))) /\
    (finite_actor a = true ->
     pyval_is_nan (gross_margin l) = false /\
     pyval_is_nan (Gross_Margin (make_row a l)) = false).
Proof.
  destruct (iteration pre a post)
    as (rp & st & rows & Hrp & _ & Hst & _ & Hm & Hc & _ & Hn).
  exists rp, st, (spec_metrics rp (prev_revenue st) a), rows.
  do 7 (split; [ first [ assumption | reflexivity ] | ]).
  split.
  - cbn [Gross_Margin make_row gross_margin spec_metrics].
    destruct (is_zero (revenue a)); reflexivity.
  - intros Hfin. unfold finite_actor in Hfin.
    apply andb_true_iff in Hfin. destruct Hfin as [Hcost Hrev].
    cbn [Gross_Margin make_row gross_margin spec_metrics].
    destruct (is_zero (revenue a)) eqn:Hz; [ split; reflexivity | ].
    assert (Hp : is_nan (percent (fsub (revenue a) (cost a)) (revenue a)) = false)
      by (apply percent_not_nan; auto using fsub_not_nan).
    split; [ exact Hp | apply fround2_not_nan, Hp ].
Qed.

Lemma gross_margin_guarded_witness :
  finite_actor (nth 0 signed_actors farmer) = true /\
  is_zero (revenue (nth 0 signed_actors farmer)) = true /\
  exists rp st l rows,
    retail_price signed_actors = Ok rp /\
    for_each rp [] initial = Ok st /\
    metrics rp (prev_revenue st) (nth 0 signed_actors farmer) = Ok l /\
    computeMetrics signed_actors = Ok rows /\
    gross_margin l = PyInt 0 /\
    pyval_is_nan (Gross_Margin (make_row (nth 0 signed_actors farmer) l)) = false.
Proof.
  split; [ reflexivity | ]. split; [ reflexivity | ].
  destruct (gross_margin_guarded [] (nth 0 signed_actors farmer)
              (tl signed_actors))
    as (rp & st & l & rows & Hrp & Hst & Hm & Hc & _ & _ & Hgm & _ & Hnan).
  exists rp, st, l, rows.
  repeat split; try assumption.
  apply (Hnan eq_refl).
Defined.

(** C3. The loop starts with [prev_revenue = 0], so the first actor's
    [added_value] is its own revenue; every later actor is reached with
    [prev_revenue] holding the revenue of the actor before it, and its
    [added_value] is its revenue minus that one; after the row is appended
    [prev_revenue] is the actor's own revenue.  The row stores [added_value]
    rounded to two decimals. *)
Theorem added_value_chain :
  (prev_revenue initial = PyInt 0) /\
  (forall a post,
      exists rp l rows,
        retail_price (a :: post) = Ok rp /\
        metrics rp (prev_revenue initial) a = Ok l /\
        added_value l = PyFloat (revenue a) /\
        loop_body rp initial a =
          Ok {| data := [make_row a l]; prev_revenue := PyFloat (revenue a) |} /\
        computeMetrics (a :: post) = Ok rows /\
        nth_error rows 0 = Some (make_row a l) /\
        Added_Value (make_row a l) = PyFloat (fround2 (revenue a))) /\
  (forall pre b a post,
      exists rp st l rows,
        retail_price (pre ++ b :: a :: post) = Ok rp /\
        for_each rp (pre ++ [b]) initial = Ok st /\
        prev_revenue st = PyFloat (revenue b) /\
        metrics rp (prev_revenue st) a = Ok l /\
        added_value l = PyFloat (fsub (revenue a) (revenue b)) /\
        loop_body rp st a =
          Ok {| data := data st ++ [make_row a l];
                prev_revenue := PyFloat (revenue a) |} /\
        computeMetrics (pre ++ b :: a :: post) = Ok rows /\
        nth_error rows (S (length pre)) = Some (make_row a l) /\
        Added_Value (make_row a l) =
          PyFloat (fround2 (fsub (revenue a) (revenue b)))).
Proof.
  split; [ reflexivity | ]. split.
  - intros a post.
    destruct (iteration [] a post)
      as (rp & st & rows & Hrp & _ & Hst & Hprev & Hm & Hc & _ & Hn).
    injection Hst as <-.
    exists rp, (spec_metrics rp (prev_revenue initial) a), rows.
    assert (Ha : added_value (spec_metrics rp (prev_revenue initial) a)
                 = PyFloat (revenue a)).
    { cbn [added_value spec_metrics prev_revenue initial to_float].
      change (float_of_Z 0) with pos_zero. rewrite fsub_zero. reflexivity. }
    repeat split; try assumption.
    + unfold loop_body. rewrite Hm. reflexivity.
    + cbn [Added_Value make_row]. rewrite Ha. reflexivity.
  - intros pre b a post.
    destruct (iteration (pre ++ [b]) a post)
      as (rp & st & rows & Hrp & _ & Hst & Hprev & Hm & Hc & _ & Hn).
    rewrite <- app_assoc in Hrp, Hc. cbn [app] in Hrp, Hc.
    rewrite length_app, Nat.add_comm in Hn. cbn [length plus] in Hn.
    rewrite prev_after_snoc in Hprev.
    exists rp, st, (spec_metrics rp (prev_revenue st) a), rows.
    assert (Ha : added_value (spec_metrics rp (prev_revenue st) a)
                 = PyFloat (fsub (revenue a) (revenue b))).
    { cbn [added_value spec_metrics]. rewrite Hprev. reflexivity. }
    repeat split; try assumption.
    + unfold loop_body. rewrite Hm. reflexivity.
    + cbn [Added_Value make_row]. rewrite Ha. reflexivity.
Qed.

Lemma rows_of_columns actors :
  forall ls,
    length ls = length actors ->
    map Actor (rows_of actors ls) = map name actors /\
    map Buying_Price (rows_of actors ls) = map (fun a => PyFloat (cost a)) actors /\
    map Selling_Price (rows_of actors ls)
    = map (fun a => PyFloat (revenue a)) actors.
Proof.
  induction actors as [ | a rest IH ]; intros [ | l ls ]; simpl; try discriminate.
  - auto.
  - intros [= H]. destruct (IH ls H) as (H1 & H2 & H3).
    rewrite H1, H2, H3. auto.
Qed.

(** C4. The computation returns one row per actor, in the order of the
    actors: the columns of names, costs and revenues of the rows are those
    of the input, and the row of each position is built from the actor of
    that position and the locals of its iteration. *)
Theorem rows_follow_actors (actors : list actor) :
  exists rp ls rows,
    retail_price actors = Ok rp /\
    iterations rp (PyInt 0) actors = Ok ls /\
    computeMetrics actors = Ok rows /\
    length rows = length actors /\
    rows = rows_of actors ls /\
    map Actor rows = map name actors /\
    map Buying_Price rows = map (fun a => PyFloat (cost a)) actors /\
    map Selling_Price rows = map (fun a => PyFloat (revenue a)) actors /\
    (forall pre a post,
        actors = pre ++ a :: post ->
        exists l,
          nth_error ls (length pre) = Some l /\
          nth_error rows (length pre) = Some (make_row a l)).
Proof.
  destruct (computation_refines actors) as (rp & Hrp & Hlit & Hi & Hc).
  exists rp, (spec_iterations rp (PyInt 0) actors),
    (rows_of actors (spec_iterations rp (PyInt 0) actors)).
  pose proof (length_spec_iterations rp actors (PyInt 0)) as Hlen.
  destruct (rows_of_columns actors _ Hlen) as (H1 & H2 & H3).
  repeat split; try assumption.
  - unfold computeMetrics. rewrite Hc. reflexivity.
  - apply length_rows_of, Hlen.
  - intros pre a post ->.
    exists (spec_metrics rp (prev_at (pre ++ a :: post) (length pre)) a).
    pose proof (nth_error_spec_iterations rp _ _ _ (nth_error_middle _ pre post a))
      as Hl.
    split; [ exact Hl | ].
    apply nth_error_rows_of; [ apply nth_error_middle | exact Hl ].
Qed.

(** C5. In the row of every actor the name, the cost and the revenue are
    those of the actor, the gross income is [revenue - cost] as computed,
    not rounded, and the gross margin, the added value and the value share
    are the loop's values rounded to two decimal places. *)
Theorem row_fields_rounded (pre : list actor) (a : actor) (post : list actor) :
  exists rp st l rows r,
    retail_price (pre ++ a :: post) = Ok rp /\
    for_each rp pre initial = Ok st /\
    metrics rp (prev_revenue st) a = Ok l /\
    computeMetrics (pre ++ a :: post) = Ok rows /\
    nth_error rows (length pre) = Some r /\
    Actor r = name a /\
    Buying_Price r = PyFloat (cost a) /\
    Selling_Price r = PyFloat (revenue a) /\
    Gross_Income r = PyFloat (fsub (revenue a) (cost a)) /\
    Gross_Income r = gross_income l /\
    Gross_Margin r = py_round2 (gross_margin l) /\
    Added_Value r = py_round2 (added_value l) /\
    Value_Share r = py_round2 (value_share l) /\
    rounded (gross_margin l) (Gross_Margin r) /\
    rounded (added_value l) (Added_Value r) /\
    rounded (value_share l) (Value_Share r).
Proof.
  destruct (iteration pre a post)
    as (rp & st & rows & Hrp & _ & Hst & _ & Hm & Hc & _ & Hn).
  exists rp, st, (spec_metrics rp (prev_revenue st) a), rows,
    (make_row a (spec_metrics rp (prev_revenue st) a)).
  repeat split; try assumption; apply py_round2_rounded.
Qed.

(** C6. On the worked example the retail price is 40 and the rows are the
    ones the specification lists: F 10, 100.00, 10, 25.00; P 15, 60.00, 15,
    37.50; R 15, 37.50, 15, 37.50 (after cost and revenue). *)
Theorem worked_example :
  retail_price example_actors = Ok (PyFloat (float_of_Z 40)) /\
  computeMetrics example_actors = Ok example_rows /\
  map Actor example_rows = ["F"; "P"; "R"]%string /\
  map exact_numbers example_rows =
    [ [0; 10; 10; 100; 10; 25];
      [10; 25; 15; 60; 15; 75 # 2];
      [25; 40; 15; 75 # 2; 15; 75 # 2] ]%Q.
Proof. repeat split; vm_compute; reflexivity. Qed.

Section Recommendations.

Variable py_str : pyval -> string.

Lemma recommend_appends recs r :
  recommend py_str recs r = recs ++ spec_warnings py_str r.
Proof.
  unfold recommend, spec_warnings.
  destruct (py_lt (Gross_Margin r) (PyInt 20)),
    (py_lt (Value_Share r) (PyInt 10)); cbn [app].
  - rewrite <- app_assoc. reflexivity.
  - reflexivity.
  - reflexivity.
  - rewrite app_nil_r. reflexivity.
Qed.

Lemma fold_recommend data :
  forall recs,
    fold_left (recommend py_str) data recs
    = recs ++ flat_map (spec_warnings py_str) data.
Proof.
  induction data as [ | r data IH ]; intros recs; simpl.
  - rewrite app_nil_r. reflexivity.
  - rewrite IH, recommend_appends, <- app_assoc. reflexivity.
Qed.

Lemma append_prefix_inj (p a b : string) :
  (p ++ a)%string = (p ++ b)%string -> a = b.
Proof.
  induction p as [ | c p IH ]; cbn [append]; intros H.
  - exact H.
  - injection H as H. apply IH, H.
Qed.

(** The two warnings of one record are different texts. *)
Lemma messages_differ r :
  low_margin_message py_str r <> small_share_message py_str r.
Proof.
  unfold low_margin_message, small_share_message. intros H.
  apply (append_prefix_inj "Actor '") in H.
  apply append_prefix_inj in H. cbn [append] in H. discriminate H.
Qed.

(** C7. The recommendations are the warnings of the records, record by
    record in input order; a record gives the low-margin warning exactly
    when its gross margin is below 20 and the low-share warning exactly when
    its value share is below 10, hence zero, one or two messages; each
    warning is the text of the script with the actor's name and the printed
    value in it; a record with gross margin 15 and value share 5 gives
    exactly the two warnings, one with 50 and 30 gives none. *)
Theorem recommendations_by_threshold :
  (forall data,
      recommendations py_str data = flat_map (spec_warnings py_str) data) /\
  (forall r,
      spec_warnings py_str r =
      match py_lt (Gross_Margin r) (PyInt 20), py_lt (Value_Share r) (PyInt 10) with
      | true, true => [low_margin_message py_str r; small_share_message py_str r]
      | true, false => [low_margin_message py_str r]
      | false, true => [small_share_message py_str r]
      | false, false => []
      end) /\
  (forall r, (length (spec_warnings py_str r) <= 2)%nat) /\
  (forall n c s gi av,
      recommendations py_str
        [metric_row n c s gi av (float_of_Z 15) (float_of_Z 5)] =
      [ low_margin_message py_str
          (metric_row n c s gi av (float_of_Z 15) (float_of_Z 5));
        small_share_message py_str
          (metric_row n c s gi av (float_of_Z 15) (float_of_Z 5)) ]) /\
  (forall n c s gi av,
      recommendations py_str
        [metric_row n c s gi av (float_of_Z 50) (float_of_Z 30)] = []) /\
  (forall r,
      low_margin_message py_str r =
      ("Actor '" ++ Actor r ++ "' has a low gross margin ("
         ++ py_str (Gross_Margin r)
         ++ "%). Consider reducing input costs or increasing selling price.")%string
      /\
      small_share_message py_str r =
      ("Actor '" ++ Actor r ++ "' has a small value share ("
         ++ py_str (Value_Share r)
         ++ "%). Consider improving value addition strategies.")%string) /\
  (forall r,
      (In (low_margin_message py_str r) (spec_warnings py_str r)
       <-> py_lt (Gross_Margin r) (PyInt 20) = true) /\
      (In (small_share_message py_str r) (spec_warnings py_str r)
       <-> py_lt (Value_Share r) (PyInt 10) = true)) /\
  (forall n c s gi av,
      recommendations py_str
        [metric_row n c s gi av (float_of_Z 15) (float_of_Z 5)] =
      [ ("Actor '" ++ n ++ "' has a low gross margin ("
           ++ py_str (PyFloat (float_of_Z 15))
           ++ "%). Consider reducing input costs or increasing selling price.")%string;
        ("Actor '" ++ n ++ "' has a small value share ("
           ++ py_str (PyFloat (float_of_Z 5))
           ++ "%). Consider improving value addition strategies.")%string ]).
Proof.
  split; [ | split; [ | split; [ | split; [ | split; [ | split; [ | split ] ] ] ] ] ].
  - intros data. unfold recommendations. rewrite fold_recommend. reflexivity.
  - intros r. unfold spec_warnings.
    destruct (py_lt (Gross_Margin r) (PyInt 20)),
      (py_lt (Value_Share r) (PyInt 10)); reflexivity.
  - intros r. unfold spec_warnings.
    destruct (py_lt (Gross_Margin r) (PyInt 20)),
      (py_lt (Value_Share r) (PyInt 10)); simpl; lia.
  - reflexivity.
  - reflexivity.
  - intros r. split; reflexivity.
  - intros r. pose proof (messages_differ r) as D. unfold spec_warnings.
    destruct (py_lt (Gross_Margin r) (PyInt 20)),
      (py_lt (Value_Share r) (PyInt 10)); cbn [app In]; split; split;
      intros H; try reflexivity; try discriminate H; auto;
      try (destruct H as [H | H]; [ | contradiction ]);
      try contradiction; try (exfalso; apply D; congruence).
  - reflexivity.
Qed.

End Recommendations.

(** C8. The computation is a function of the list of actors and never
    raises: equal inputs give the same final state and the same rows,
    whatever the floats in them (zero, negative, or not even finite). *)
Theorem deterministic_and_total (actors1 actors2 : list actor) :
  actors1 = actors2 ->
  exists st,
    computation actors1 = Ok st /\ computation actors2 = Ok st /\
    computeMetrics actors1 = Ok (data st) /\
    computeMetrics actors2 = Ok (data st) /\
    length (data st) = length actors1.
Proof.
  intros <-.
  destruct (computation_refines actors1) as (rp & _ & _ & _ & Hc).
  eexists. unfold computeMetrics. rewrite Hc. cbn [bind data].
  repeat split.
  apply length_rows_of, length_spec_iterations.
Qed.

Lemma deterministic_and_total_witness :
  signed_actors = signed_actors /\
  exists st,
    computation signed_actors = Ok st /\ computation signed_actors = Ok st /\
    computeMetrics signed_actors = Ok (data st) /\
    computeMetrics signed_actors = Ok (data st) /\
    length (data st) = length signed_actors.
Proof.
  split; [ reflexivity | ].
  exact (deterministic_and_total signed_actors signed_actors eq_refl).
Defined.

(** Whole-number prices below [2^52] are subtracted without rounding. *)
Lemma whole_prices_exact actors :
  forall prev zp,
    whole prev zp -> Z.abs zp < 2 ^ 52 ->
    forallb (fun a => whole_price (revenue a)) actors = true ->
    exact_differences prev actors = true.
Proof.
  induction actors as [ | a rest IH ]; intros prev zp Hp Hb H; [ reflexivity | ].
  cbn [forallb] in H. apply andb_true_iff in H. destruct H as [Ha Hrest].
  destruct (whole_price_whole _ Ha) as (z & Hz & Hzb).
  cbn [exact_differences].
  rewrite (whole_finite _ _ Hz), (fsub_whole_exact _ _ z zp Hz Hp) by lia.
  cbn [andb]. apply (IH (revenue a) z Hz Hzb Hrest).
Qed.

Lemma exact_telescope rp actors :
  forall prev,
    exact_differences (to_float prev) actors = true ->
    (Qsum (added_values (spec_iterations rp prev actors))
     == F2Q (to_float (prev_after prev actors)) - F2Q (to_float prev))%Q.
Proof.
  induction actors as [ | a rest IH ]; intros prev H.
  - cbn. ring.
  - cbn [exact_differences] in H.
    apply andb_true_iff in H. destruct H as [H Hrest].
    apply andb_true_iff in H. destruct H as [_ Hsub].
    unfold exact_sub in Hsub. apply andb_true_iff in Hsub.
    destruct Hsub as [_ Hsub]. apply Qeq_bool_iff in Hsub.
    specialize (IH (PyFloat (revenue a)) Hrest).
    cbn [spec_iterations added_values map Qsum fold_right] in *.
    cbn [added_value spec_metrics value to_float] in *.
    change (prev_after prev (a :: rest))
      with (prev_after (PyFloat (revenue a)) rest).
    unfold added_values, Qsum in IH. rewrite IH, Hsub. ring.
Qed.

(** C9, as the code has it.  When every revenue is finite and every
    difference [revenue - prev_revenue] is computed without rounding, the
    exact sum of the [added_value]s of the iterations is the revenue of the
    last actor, which is the retail price. *)
Theorem added_values_telescope (init : list actor) (z : actor) :
  exact_differences pos_zero (init ++ [z]) = true ->
  exists ls,
    retail_price (init ++ [z]) = Ok (PyFloat (revenue z)) /\
    iterations (PyFloat (revenue z)) (PyInt 0) (init ++ [z]) = Ok ls /\
    length ls = length (init ++ [z]) /\
    (Qsum (added_values ls) == F2Q (revenue z))%Q.
Proof.
  intros H.
  exists (spec_iterations (PyFloat (revenue z)) (PyInt 0) (init ++ [z])).
  split; [ apply retail_price_snoc | ].
  split; [ apply iterations_refines; [ exact I | left; reflexivity ] | ].
  split; [ apply length_spec_iterations | ].
  rewrite (exact_telescope (PyFloat (revenue z)) (init ++ [z]) (PyInt 0) H).
  rewrite prev_after_snoc. cbn. ring.
Qed.

(** In particular the sum telescopes whenever the revenues are whole numbers
    below [2^52] in magnitude. *)
Lemma whole_prices_telescope (init : list actor) (z : actor) :
  forallb (fun a => whole_price (revenue a)) (init ++ [z]) = true ->
  exists ls,
    iterations (PyFloat (revenue z)) (PyInt 0) (init ++ [z]) = Ok ls /\
    (Qsum (added_values ls) == F2Q (revenue z))%Q.
Proof.
  intros H.
  assert (He : exact_differences (to_float (PyInt 0)) (init ++ [z]) = true).
  { apply (whole_prices_exact _ _ 0); [ reflexivity | reflexivity | exact H ]. }
  exists (spec_iterations (PyFloat (revenue z)) (PyInt 0) (init ++ [z])).
  split; [ apply iterations_refines; [ exact I | left; reflexivity ] | ].
  rewrite (exact_telescope (PyFloat (revenue z)) (init ++ [z]) (PyInt 0) He).
  rewrite prev_after_snoc. cbn. ring.
Qed.

Lemma added_values_telescope_witness :
  exact_differences pos_zero ([farmer; processor] ++ [retailer]) = true /\
  exists ls,
    retail_price ([farmer; processor] ++ [retailer])
    = Ok (PyFloat (revenue retailer)) /\
    iterations (PyFloat (revenue retailer)) (PyInt 0)
      ([farmer; processor] ++ [retailer]) = Ok ls /\
    length ls = length ([farmer; processor] ++ [retailer]) /\
    (Qsum (added_values ls) == F2Q (revenue retailer))%Q.
Proof.
  split; [ vm_compute; reflexivity | ].
  exact (added_values_telescope [farmer; processor] retailer eq_refl).
Defined.

(** C9 as stated fails on binary64.  With the revenues 0.03 and 0.30 the
    second difference is rounded to 0.27, the exact sum of the two
    [added_value]s exceeds the retail price 0.30 (their float sum is the
    next float above it), and the two [value_share]s sum to more than
    100. *)
Lemma telescoping_broken_by_rounding :
  retail_price rounding_actors = Ok (PyFloat (decimal 30 2)) /\
  exists ls,
    iterations (PyFloat (decimal 30 2)) (PyInt 0) rounding_actors = Ok ls /\
    map added_value ls = [PyFloat (decimal 3 2); PyFloat (decimal 27 2)] /\
    (Qsum (added_values ls) ?= F2Q (decimal 30 2))%Q = Gt /\
    decimal 30 2 = S754_finite false 5404319552844595 (-54) /\
    fadd (decimal 3 2) (decimal 27 2) = S754_finite false 5404319552844596 (-54) /\
    (Qsum (value_shares ls) ?= 100)%Q = Gt.
Proof.
  split; [ vm_compute; reflexivity | ].
  eexists. split; [ vm_compute; reflexivity | ].
  repeat split; vm_compute; reflexivity.
Qed.

Lemma spec_metrics_prices rp prev a1 a2 :
  cost a1 = cost a2 -> revenue a1 = revenue a2 ->
  spec_metrics rp prev a1 = spec_metrics rp prev a2.
Proof. intros Hc Hr. unfold spec_metrics. rewrite Hc, Hr. reflexivity. Qed.

Lemma numbers_rows_prices rp actors1 :
  forall actors2 prev,
    prices actors1 = prices actors2 ->
    map numbers (rows_of actors1 (spec_iterations rp prev actors1))
    = map numbers (rows_of actors2 (spec_iterations rp prev actors2)).
Proof.
  induction actors1 as [ | a1 rest1 IH ]; intros [ | a2 rest2 ] prev; simpl;
    try discriminate; [ reflexivity | ].
  intros [= Hc Hr Hrest].
  rewrite (spec_metrics_prices rp prev a1 a2 Hc Hr), Hr.
  rewrite (IH rest2 (PyFloat (revenue a2)) Hrest).
  unfold numbers. cbn [Buying_Price Selling_Price Gross_Income Gross_Margin
                         Added_Value Value_Share make_row].
  rewrite Hc, Hr. reflexivity.
Qed.

Lemma retail_price_prices actors1 actors2 :
  prices actors1 = prices actors2 -> retail_price actors1 = retail_price actors2.
Proof.
  intros H.
  destruct (snoc_cases _ actors1) as [-> | (i1 & z1 & ->)];
    destruct (snoc_cases _ actors2) as [-> | (i2 & z2 & ->)].
  - reflexivity.
  - unfold prices in H. rewrite map_app in H. destruct (map _ i2); discriminate.
  - unfold prices in H. rewrite map_app in H. destruct (map _ i1); discriminate.
  - unfold prices in H. rewrite !map_app in H. cbn [map] in H.
    apply app_inj_tail in H. destruct H as [_ [= _ Hr]].
    rewrite !retail_price_snoc, Hr. reflexivity.
Qed.

Lemma thresholds_of_numbers rows1 :
  forall rows2,
    map numbers rows1 = map numbers rows2 ->
    map thresholds rows1 = map thresholds rows2.
Proof.
  induction rows1 as [ | r1 rest1 IH ]; intros [ | r2 rest2 ]; cbn [map];
    try discriminate; [ reflexivity | ].
  intros H. injection H as _ _ _ Hgm _ Hvs Hrest.
  rewrite (IH rest2 Hrest). unfold thresholds. rewrite Hgm, Hvs. reflexivity.
Qed.

(** C10. Two inputs with the same costs and revenues, whatever the names,
    give rows with the same numeric columns, and the same threshold tests of
    the recommendation loop at every position. *)
Theorem names_do_not_interfere (actors1 actors2 : list actor) :
  prices actors1 = prices actors2 ->
  exists rows1 rows2,
    computeMetrics actors1 = Ok rows1 /\
    computeMetrics actors2 = Ok rows2 /\
    map numbers rows1 = map numbers rows2 /\
    map thresholds rows1 = map thresholds rows2.
Proof.
  intros H.
  destruct (computation_refines actors1) as (rp1 & Hrp1 & _ & _ & Hc1).
  destruct (computation_refines actors2) as (rp2 & Hrp2 & _ & _ & Hc2).
  rewrite (retail_price_prices _ _ H), Hrp2 in Hrp1. injection Hrp1 as <-.
  exists (rows_of actors1 (spec_iterations rp2 (PyInt 0) actors1)),
    (rows_of actors2 (spec_iterations rp2 (PyInt 0) actors2)).
  unfold computeMetrics. rewrite Hc1, Hc2. cbn [bind data].
  pose proof (numbers_rows_prices rp2 actors1 actors2 (PyInt 0) H) as Hn.
  repeat split; [ exact Hn | apply thresholds_of_numbers, Hn ].
Qed.

Lemma names_do_not_interfere_witness :
  prices example_actors = prices renamed_actors /\
  exists rows1 rows2,
    computeMetrics example_actors = Ok rows1 /\
    computeMetrics renamed_actors = Ok rows2 /\
    map numbers rows1 = map numbers rows2 /\
    map thresholds rows1 = map thresholds rows2.
Proof.
  split; [ reflexivity | ].
  exact (names_do_not_interfere example_actors renamed_actors eq_refl).
Defined.

End Properties.

(** ** Further properties of the script *)

Module Coverage.
Import PyNum PyNumFacts App AppFacts Properties.

(** *** Signs of results *)

Lemma binary_round_aux_nonpositive m e l :
  0 <= m -> nonpositive (binary_round_aux prec emax true m e l) = true.
Proof.
  intros H. pose proof (binary_round_aux_not_nan true m e l H) as N.
  revert N. unfold binary_round_aux.
  destruct (shr_fexp prec emax m e l) as [mrs1 e1].
  destruct (shr_fexp prec emax _ e1 loc_Exact) as [mrs2 e2].
  destruct (shr_m mrs2) as [ | p | p ]; try reflexivity.
  - destruct (e2 <=? emax - prec); reflexivity.
  - discriminate.
Qed.

Lemma binary_normalize_nonpositive m e :
  m <= 0 -> nonpositive (binary_normalize prec emax m e false) = true.
Proof.
  destruct m as [ | p | p ]; cbn [binary_normalize]; intros H;
    [ reflexivity | lia | ].
  unfold binary_round. destruct (shl_align p e _) as [mz ez].
  apply binary_round_aux_nonpositive. lia.
Qed.

(** A quotient of something that is not positive by a positive finite float
    is not positive. *)
Lemma fdiv_nonpositive x y :
  nonpositive x = true -> positive_finite y = true ->
  nonpositive (fdiv x y) = true.
Proof.
  destruct x as [sx | sx | | sx mx ex], y as [sy | sy | | [ | ] my ey];
    cbn [nonpositive positive_finite]; try discriminate; intros Hx _.
  - reflexivity.
  - subst sx. reflexivity.
  - subst sx. unfold fdiv, SFdiv. cbn [xorb].
    pose proof (div_core_nonneg (Zpos mx) ex (Zpos my) ey ltac:(lia) ltac:(lia)) as H.
    destruct (SFdiv_core_binary prec emax (Zpos mx) ex (Zpos my) ey) as [[q e] l].
    apply binary_round_aux_nonpositive. exact H.
Qed.

Lemma fmul_nonpositive x y :
  nonpositive x = true -> positive_finite y = true ->
  nonpositive (fmul x y) = true.
Proof.
  destruct x as [sx | sx | | sx mx ex], y as [sy | sy | | [ | ] my ey];
    cbn [nonpositive positive_finite]; try discriminate; intros Hx _.
  - reflexivity.
  - subst sx. reflexivity.
  - subst sx. unfold fmul, SFmul. cbn [xorb].
    apply binary_round_aux_nonpositive. lia.
Qed.

Lemma fround2_nonpositive x :
  nonpositive x = true -> nonpositive (fround2 x) = true.
Proof.
  destruct x as [sx | sx | | sx mx ex]; cbn [nonpositive fround2]; auto.
  intros ->. unfold div_nearest.
  destruct (hundredths mx ex) as [ | p | p ]; try reflexivity.
  pose proof (div_core_nonneg (Zpos p) 0 100 0 ltac:(lia) ltac:(lia)) as H.
  destruct (SFdiv_core_binary prec emax (Zpos p) 0 100 0) as [[q e] l].
  apply binary_round_aux_nonpositive. exact H.
Qed.

(** What is not positive is below every positive integer. *)
Lemma nonpositive_lt x z :
  nonpositive x = true -> 0 < z -> py_lt (PyFloat x) (PyInt z) = true.
Proof.
  destruct x as [sx | sx | | sx mx ex]; cbn [nonpositive py_lt compare_float_Z];
    try discriminate; intros Hx Hz.
  - rewrite (proj2 (Z.compare_lt_iff 0 z) Hz). reflexivity.
  - subst sx. reflexivity.
  - subst sx. destruct ex as [ | p | p ].
    + rewrite (proj2 (Z.compare_lt_iff _ _)); [ reflexivity | ].
      change (2 ^ 0) with 1. lia.
    + rewrite (proj2 (Z.compare_lt_iff _ _)); [ reflexivity | ].
      assert (0 < 2 ^ Zpos p) by (apply Z.pow_pos_nonneg; lia). nia.
    + rewrite (proj2 (Z.compare_lt_iff _ _)); [ reflexivity | ].
      assert (0 < Z.pow_pos 2 p) by (change (0 < 2 ^ Zpos p); apply Z.pow_pos_nonneg; lia).
      nia.
Qed.

(** A float that is not positive fails the test [0 < x]. *)
Lemma nonpositive_not_gt x :
  nonpositive x = true -> py_lt (PyInt 0) (PyFloat x) = false.
Proof.
  destruct x as [sx | sx | | sx mx ex]; cbn [nonpositive py_lt compare_float_Z];
    try discriminate; intros Hx.
  - reflexivity.
  - subst sx. reflexivity.
  - subst sx. destruct ex as [ | p | p ].
    + rewrite (proj2 (Z.compare_lt_iff _ _)); [ reflexivity | ].
      change (2 ^ 0) with 1. lia.
    + rewrite (proj2 (Z.compare_lt_iff _ _)); [ reflexivity | ].
      assert (0 < 2 ^ Zpos p) by (apply Z.pow_pos_nonneg; lia). nia.
    + rewrite (proj2 (Z.compare_lt_iff _ _)); [ reflexivity | ]. lia.
Qed.

(** The mantissa of a binary64 value has at most 53 bits, and exactly 53
    above the least exponent. *)
Lemma well_formed_bounds s m e :
  well_formed (S754_finite s m e) = true ->
  Zpos m < 2 ^ 53 /\ -1074 <= e /\ (-1074 < e -> 2 ^ 52 <= Zpos m).
Proof.
  unfold well_formed, valid_binary, bounded, canonical_mantissa.
  intros H. apply andb_true_iff in H. destruct H as [H _].
  apply Z.eqb_eq in H. unfold fexp, emin, prec, emax in H.
  pose proof (digits2_pos_bounds m) as [B1 B2].
  assert (Hd : Zpos (digits2_pos m) <= 53) by lia.
  split; [ | split; [ lia | ] ].
  - apply Z.lt_le_trans with (1 := B2). apply Z.pow_le_mono_r; lia.
  - intros He. assert (Zpos (digits2_pos m) = 53) by lia.
    replace 52 with (Zpos (digits2_pos m) - 1) by lia. exact B1.
Qed.

Lemma shifted_mantissa_le mx ex my ey :
  Zpos mx < 2 ^ 53 -> 2 ^ 52 <= Zpos my -> ex < ey ->
  Zpos (fst (shl_align mx ex (Z.min ex ey)))
  <= Zpos (fst (shl_align my ey (Z.min ex ey))).
Proof.
  intros Hx Hy He.
  destruct (shl_align_value mx ex (Z.min ex ey) ltac:(lia)) as [-> _].
  destruct (shl_align_value my ey (Z.min ex ey) ltac:(lia)) as [-> _].
  replace (ex - Z.min ex ey) with 0 by lia.
  replace (ey - Z.min ex ey) with (Z.succ (ey - ex - 1)) by lia.
  rewrite Z.pow_succ_r by lia. change (2 ^ 0) with 1.
  assert (0 < 2 ^ (ey - ex - 1)) by (apply Z.pow_pos_nonneg; lia).
  change (2 ^ 53) with (2 * 2 ^ 52) in Hx. nia.
Qed.

Lemma equal_exponent_mantissa mx my e :
  (mx < my)%positive ->
  Zpos (fst (shl_align mx e (Z.min e e)))
  <= Zpos (fst (shl_align my e (Z.min e e))).
Proof.
  intros H.
  destruct (shl_align_value mx e (Z.min e e) ltac:(lia)) as [-> _].
  destruct (shl_align_value my e (Z.min e e) ltac:(lia)) as [-> _].
  replace (e - Z.min e e) with 0 by lia. change (2 ^ 0) with 1. lia.
Qed.

(** The difference of two finite floats is not positive when the first is
    at most the second. *)
Lemma fsub_nonpositive x y :
  is_finite x = true -> is_finite y = true ->
  well_formed x = true -> well_formed y = true ->
  fle x y = true ->
  nonpositive (fsub x y) = true.
Proof.
  destruct x as [sx | sx | | sx mx ex], y as [sy | sy | | sy my ey];
    cbn [is_finite]; try discriminate; intros _ _ Vx Vy.
  - intros _. destruct sx, sy; reflexivity.
  - destruct sy; cbn; [ discriminate | reflexivity ].
  - destruct sx; cbn; [ reflexivity | discriminate ].
  - destruct (well_formed_bounds _ _ _ Vx) as (Bx & Ex & Nx).
    destruct (well_formed_bounds _ _ _ Vy) as (By & Ey & Ny).
    unfold fle, SFleb. cbn [SFcompare]. unfold fsub, SFsub.
    intros H. apply binary_normalize_nonpositive.
    destruct sx, sy; cbn [cond_Zopp]; try discriminate H; try lia.
    + destruct (Z.compare_spec ex ey) as [-> | Hlt | Hgt]; try discriminate H.
      * rewrite Pos.compare_cont_spec in H. cbn [Pos.switch_Eq] in H.
        destruct (Pos.compare_spec mx my) as [ -> | | Hm ]; try discriminate H;
          [ lia | ].
        pose proof (equal_exponent_mantissa my mx ey Hm). lia.
      * pose proof (shifted_mantissa_le my ey mx ex By (Nx ltac:(lia)) ltac:(lia)) as S.
        rewrite Z.min_comm in S. lia.
    + destruct (Z.compare_spec ex ey) as [-> | Hlt | Hgt]; try discriminate H.
      * rewrite Pos.compare_cont_spec in H. cbn [Pos.switch_Eq] in H.
        destruct (Pos.compare_spec mx my) as [ -> | Hm | ]; try discriminate H;
          [ lia | ].
        pose proof (equal_exponent_mantissa mx my ey Hm). lia.
      * pose proof (shifted_mantissa_le mx ex my ey Bx (Ny ltac:(lia)) ltac:(lia)) as S.
        lia.
Qed.

(** A finite non-zero float divided by itself is exactly 1.0. *)
Lemma fdiv_self s m e :
  fdiv (S754_finite s m e) (S754_finite s m e) = one.
Proof.
  unfold fdiv, SFdiv, SFdiv_core_binary.
  replace (Zdigits2 (Zpos m) + e - (Zdigits2 (Zpos m) + e)) with 0 by lia.
  replace (e - e) with 0 by lia.
  change (Z.min (fexp prec emax 0) 0) with (-53).
  change (0 - -53) with 53. cbv iota.
  assert (E : Z.div_eucl (Z.shiftl (Zpos m) 53) (Zpos m) = (2 ^ 53, 0)).
  { pose proof (Z.div_eucl_eq (Z.shiftl (Zpos m) 53) (Zpos m) ltac:(lia)) as D.
    pose proof (Z.mod_pos_bound (Z.shiftl (Zpos m) 53) (Zpos m) ltac:(lia)) as B.
    unfold Z.modulo in B.
    destruct (Z.div_eucl (Z.shiftl (Zpos m) 53) (Zpos m)) as [q r].
    rewrite Z.shiftl_mul_pow2 in D by lia.
    assert (q = 2 ^ 53) by nia. subst q. f_equal. lia. }
  rewrite E.
  replace (new_location (Zpos m) 0) with loc_Exact
    by (unfold new_location; destruct (Z.even (Zpos m)); reflexivity).
  destruct s; reflexivity.
Qed.

Lemma finite_not_nan x : is_finite x = true -> is_nan x = false.
Proof. destruct x; simpl; auto; discriminate. Qed.

(** X1. When the loop is left [prev_revenue] holds the revenue of the last
    actor, which is the retail price; on an empty list the loop leaves the
    initial state. *)
Theorem prev_revenue_ends_at_retail_price :
  computation [] = Ok initial /\
  (forall init z,
      exists st,
        computation (init ++ [z]) = Ok st /\
        prev_revenue st = PyFloat (revenue z) /\
        retail_price (init ++ [z]) = Ok (prev_revenue st)).
Proof.
  split; [ reflexivity | ].
  intros init z.
  destruct (computation_refines (init ++ [z])) as (rp & Hrp & _ & _ & Hc).
  eexists. split; [ exact Hc | ].
  cbn [prev_revenue]. rewrite prev_after_snoc.
  split; [ reflexivity | apply retail_price_snoc ].
Qed.

Lemma row_nan_free rp prev a :
  literal_or_float rp ->
  is_finite (to_float rp) = true -> is_finite (to_float prev) = true ->
  finite_actor a = true ->
  nan_free (make_row a (spec_metrics rp prev a)) = true.
Proof.
  intros Hlit Hrp Hprev Ha. unfold finite_actor in Ha.
  apply andb_true_iff in Ha. destruct Ha as [Hc Hr].
  pose proof (fsub_not_nan _ _ Hr Hc) as Hgi.
  pose proof (fsub_not_nan _ _ Hr Hprev) as Hav.
  unfold nan_free, numbers.
  cbn [forallb make_row spec_metrics Buying_Price Selling_Price Gross_Income
         Gross_Margin Added_Value Value_Share gross_income gross_margin
         added_value value_share py_round2 pyval_is_nan].
  rewrite (finite_not_nan _ Hc), (finite_not_nan _ Hr), Hgi.
  rewrite (fround2_not_nan _ Hav). cbn [negb andb].
  assert (Hgm : pyval_is_nan
                  (py_round2 (if is_zero (revenue a) then PyInt 0
                              else PyFloat (percent (fsub (revenue a) (cost a))
                                              (revenue a)))) = false).
  { destruct (is_zero (revenue a)) eqn:Hz; [ reflexivity | ].
    apply fround2_not_nan, percent_not_nan; assumption. }
  assert (Hvs : pyval_is_nan
                  (py_round2 (if py_bool rp
                              then PyFloat (percent (fsub (revenue a) (to_float prev))
                                              (to_float rp))
                              else PyInt 0)) = false).
  { destruct (py_bool rp) eqn:Hb; [ | reflexivity ].
    apply fround2_not_nan, percent_not_nan; try assumption.
    apply py_bool_divisor; assumption. }
  rewrite Hgm, Hvs. reflexivity.
Qed.

Lemma rows_nan_free rp actors :
  literal_or_float rp -> is_finite (to_float rp) = true ->
  forall prev,
    is_finite (to_float prev) = true ->
    forallb finite_actor actors = true ->
    forallb nan_free (rows_of actors (spec_iterations rp prev actors)) = true.
Proof.
  intros Hlit Hrp. induction actors as [ | a rest IH ]; intros prev Hprev H.
  - reflexivity.
  - cbn [forallb] in H. apply andb_true_iff in H. destruct H as [Ha Hrest].
    cbn [spec_iterations rows_of forallb].
    rewrite (row_nan_free rp prev a Hlit Hrp Hprev Ha). cbn [andb].
    apply IH; [ | exact Hrest ].
    unfold finite_actor in Ha. apply andb_true_iff in Ha. apply Ha.
Qed.

(** X2. On finite prices no numeric column of any row is a NaN: neither the
    guarded divisions nor the subtractions nor the rounding produce one. *)
Theorem finite_prices_give_no_nan (actors : list actor) :
  forallb finite_actor actors = true ->
  exists rows,
    computeMetrics actors = Ok rows /\
    length rows = length actors /\
    forallb nan_free rows = true.
Proof.
  intros H.
  destruct (computation_refines actors) as (rp & Hrp & Hlit & _ & Hc).
  exists (rows_of actors (spec_iterations rp (PyInt 0) actors)).
  split; [ unfold computeMetrics; rewrite Hc; reflexivity | ].
  split; [ apply length_rows_of, length_spec_iterations | ].
  apply rows_nan_free; try assumption; [ | reflexivity ].
  destruct (snoc_cases _ actors) as [-> | (init & z & ->)].
  - injection Hrp as <-. reflexivity.
  - rewrite retail_price_snoc in Hrp. injection Hrp as <-.
    rewrite forallb_app in H. apply andb_true_iff in H. destruct H as [_ H].
    cbn [forallb] in H. rewrite andb_true_r in H.
    unfold finite_actor in H. apply andb_true_iff in H. apply H.
Qed.

Lemma finite_prices_give_no_nan_witness :
  forallb finite_actor signed_actors = true /\
  exists rows,
    computeMetrics signed_actors = Ok rows /\
    length rows = length signed_actors /\
    forallb nan_free rows = true.
Proof.
  split; [ reflexivity | ].
  exact (finite_prices_give_no_nan signed_actors eq_refl).
Defined.

Section Warnings.

Variable py_str : pyval -> string.

Lemma recommendations_flat_map data :
  recommendations py_str data = flat_map (spec_warnings py_str) data.
Proof. unfold recommendations. rewrite fold_recommend. reflexivity. Qed.

Lemma low_margin_recommended data r :
  In r data -> py_lt (Gross_Margin r) (PyInt 20) = true ->
  In (low_margin_message py_str r) (recommendations py_str data).
Proof.
  intros Hr Hlt. rewrite recommendations_flat_map. apply in_flat_map.
  exists r. split; [ exact Hr | ].
  unfold spec_warnings. rewrite Hlt. left. reflexivity.
Qed.

Lemma small_share_recommended data r :
  In r data -> py_lt (Value_Share r) (PyInt 10) = true ->
  In (small_share_message py_str r) (recommendations py_str data).
Proof.
  intros Hr Hlt. rewrite recommendations_flat_map. apply in_flat_map.
  exists r. split; [ exact Hr | ].
  unfold spec_warnings. rewrite Hlt. apply in_or_app. right. left. reflexivity.
Qed.

End Warnings.

Lemma zero_retail_rows rp actors :
  py_bool rp = false ->
  forall prev,
    Forall (fun r => Value_Share r = PyInt 0)
      (rows_of actors (spec_iterations rp prev actors)).
Proof.
  intros Hb. induction actors as [ | a rest IH ]; intros prev;
    cbn [spec_iterations rows_of]; constructor.
  - cbn [Value_Share make_row value_share spec_metrics]. rewrite Hb. reflexivity.
  - apply IH.
Qed.

(** X3. When the last actor sells at zero the retail price is zero: the
    guard makes the value share of every row the integer 0, and every actor
    gets the small-value-share warning. *)
Theorem zero_retail_price_warns_everyone (init : list actor) (z : actor) :
  is_zero (revenue z) = true ->
  exists rows,
    computeMetrics (init ++ [z]) = Ok rows /\
    length rows = length (init ++ [z]) /\
    Forall (fun r => Value_Share r = PyInt 0) rows /\
    (forall py_str r,
        In r rows ->
        In (small_share_message py_str r) (recommendations py_str rows)).
Proof.
  intros Hz.
  destruct (computation_refines (init ++ [z])) as (rp & Hrp & _ & _ & Hc).
  rewrite retail_price_snoc in Hrp. injection Hrp as <-.
  eexists. split; [ unfold computeMetrics; rewrite Hc; reflexivity | ].
  cbn [data].
  split; [ apply length_rows_of, length_spec_iterations | ].
  assert (HF := zero_retail_rows (PyFloat (revenue z)) (init ++ [z])
                  ltac:(cbn [py_bool]; rewrite Hz; reflexivity) (PyInt 0)).
  split; [ exact HF | ].
  intros py_str r Hr. apply small_share_recommended; [ exact Hr | ].
  rewrite Forall_forall in HF. rewrite (HF r Hr). reflexivity.
Qed.

Lemma zero_retail_price_warns_everyone_witness :
  is_zero (revenue (nth 0 signed_actors farmer)) = true /\
  exists rows,
    computeMetrics ([] ++ [nth 0 signed_actors farmer]) = Ok rows /\
    length rows = length ([] ++ [nth 0 signed_actors farmer]) /\
    Forall (fun r => Value_Share r = PyInt 0) rows /\
    (forall py_str r,
        In r rows ->
        In (small_share_message py_str r) (recommendations py_str rows)).
Proof.
  split; [ reflexivity | ].
  exact (zero_retail_price_warns_everyone [] (nth 0 signed_actors farmer) eq_refl).
Defined.

(** X4. An actor that sells at zero has gross margin 0 by the guard, and so
    always gets the low-gross-margin warning, wherever it stands in the
    chain. *)
Theorem zero_revenue_warns (pre : list actor) (a : actor) (post : list actor) :
  is_zero (revenue a) = true ->
  exists rows r,
    computeMetrics (pre ++ a :: post) = Ok rows /\
    nth_error rows (length pre) = Some r /\
    Actor r = name a /\
    Gross_Margin r = PyInt 0 /\
    (forall py_str,
        In (low_margin_message py_str r) (recommendations py_str rows)).
Proof.
  intros Hz.
  destruct (iteration pre a post)
    as (rp & st & rows & _ & _ & _ & _ & _ & Hc & _ & Hn).
  exists rows, (make_row a (spec_metrics rp (prev_revenue st) a)).
  assert (Hgm : Gross_Margin (make_row a (spec_metrics rp (prev_revenue st) a))
                = PyInt 0).
  { cbn [Gross_Margin make_row gross_margin spec_metrics]. rewrite Hz. reflexivity. }
  repeat split; try assumption.
  intros py_str. apply low_margin_recommended.
  - apply (nth_error_In _ _ Hn).
  - rewrite Hgm. reflexivity.
Qed.

Lemma zero_revenue_warns_witness :
  is_zero (revenue (nth 0 signed_actors farmer)) = true /\
  exists rows r,
    computeMetrics signed_actors = Ok rows /\
    nth_error rows 0 = Some r /\
    Gross_Margin r = PyInt 0 /\
    (forall py_str,
        In (low_margin_message py_str r) (recommendations py_str rows)).
Proof.
  split; [ reflexivity | ].
  destruct (zero_revenue_warns [] (nth 0 signed_actors farmer) (tl signed_actors)
              eq_refl) as (rows & r & Hc & Hn & _ & Hgm & Hw).
  exists rows, r. repeat split; assumption.
Defined.

Lemma upstream_columns_retail rp1 rp2 prev a :
  upstream_columns (make_row a (spec_metrics rp1 prev a))
  = upstream_columns (make_row a (spec_metrics rp2 prev a)).
Proof. reflexivity. Qed.

Lemma upstream_rows_prefix rp1 rp2 pre :
  forall prev post,
    map upstream_columns
      (firstn (length pre)
         (rows_of (pre ++ post) (spec_iterations rp1 prev (pre ++ post))))
    = map upstream_columns (rows_of pre (spec_iterations rp2 prev pre)).
Proof.
  induction pre as [ | a rest IH ]; intros prev post.
  - reflexivity.
  - cbn [app length spec_iterations rows_of firstn map].
    rewrite (upstream_columns_retail rp1 rp2 prev a). f_equal. apply IH.
Qed.

(** X5. Appending actors downstream changes only the value shares of the
    actors already in the chain: their names, costs, revenues, gross
    incomes, gross margins and added values are what the shorter chain
    gives. *)
Theorem downstream_actors_change_only_value_share (pre post : list actor) :
  exists rows_pre rows_all,
    computeMetrics pre = Ok rows_pre /\
    computeMetrics (pre ++ post) = Ok rows_all /\
    length rows_all = (length rows_pre + length post)%nat /\
    map upstream_columns (firstn (length rows_pre) rows_all)
    = map upstream_columns rows_pre.
Proof.
  destruct (computation_refines pre) as (rp1 & _ & _ & _ & Hc1).
  destruct (computation_refines (pre ++ post)) as (rp2 & _ & _ & _ & Hc2).
  exists (rows_of pre (spec_iterations rp1 (PyInt 0) pre)),
    (rows_of (pre ++ post) (spec_iterations rp2 (PyInt 0) (pre ++ post))).
  unfold computeMetrics. rewrite Hc1, Hc2. cbn [bind data].
  rewrite !length_rows_of by apply length_spec_iterations.
  repeat split; [ apply length_app | apply upstream_rows_prefix ].
Qed.

Lemma linked_rows rp actors :
  forall prev,
    linked (to_float prev) actors ->
    Forall (fun r => Added_Value r = py_round2 (Gross_Income r))
      (rows_of actors (spec_iterations rp prev actors)).
Proof.
  induction actors as [ | a rest IH ]; intros prev H;
    cbn [spec_iterations rows_of]; constructor.
  - destruct H as [Hc _].
    cbn [Added_Value Gross_Income make_row added_value gross_income spec_metrics].
    rewrite Hc. reflexivity.
  - destruct H as [_ H]. apply (IH (PyFloat (revenue a))). exact H.
Qed.

(** X6. In a chain where every actor buys at the price the actor before it
    sells at, the first one at 0.0, the added value of every row is its
    gross income rounded to two decimals. *)
Theorem linked_chain_added_value_is_gross_income (actors : list actor) :
  linked pos_zero actors ->
  exists rows,
    computeMetrics actors = Ok rows /\
    length rows = length actors /\
    Forall (fun r => Added_Value r = py_round2 (Gross_Income r)) rows.
Proof.
  intros H.
  destruct (computation_refines actors) as (rp & _ & _ & _ & Hc).
  eexists. split; [ unfold computeMetrics; rewrite Hc; reflexivity | ].
  cbn [data]. split; [ apply length_rows_of, length_spec_iterations | ].
  apply linked_rows. exact H.
Qed.

Lemma linked_chain_added_value_is_gross_income_witness :
  linked pos_zero example_actors /\
  exists rows,
    computeMetrics example_actors = Ok rows /\
    length rows = length example_actors /\
    Forall (fun r => Added_Value r = py_round2 (Gross_Income r)) rows.
Proof.
  split; [ repeat split | ].
  exact (linked_chain_added_value_is_gross_income example_actors
           (conj eq_refl (conj eq_refl (conj eq_refl I)))).
Defined.

Section Notices.

Variable py_str : pyval -> string.

Lemma show_warnings recs :
  forall shown,
    fold_left (fun shown rec => shown ++ [warning rec]) recs shown
    = shown ++ map warning recs.
Proof.
  induction recs as [ | r recs IH ]; intros shown; cbn [fold_left map].
  - rewrite app_nil_r. reflexivity.
  - rewrite IH, <- app_assoc. reflexivity.
Qed.

Lemma passes_no_warning r :
  spec_warnings py_str r = [] <-> passes r = true.
Proof.
  unfold spec_warnings, passes.
  destruct (py_lt (Gross_Margin r) (PyInt 20)),
    (py_lt (Value_Share r) (PyInt 10)); cbn; split; congruence.
Qed.

Lemma all_pass_no_recommendation data :
  recommendations py_str data = [] <-> forallb passes data = true.
Proof.
  rewrite recommendations_flat_map.
  induction data as [ | r data IH ]; cbn [flat_map forallb].
  - split; reflexivity.
  - rewrite andb_true_iff, <- IH, <- passes_no_warning. split.
    + intros H. apply app_eq_nil in H. exact H.
    + intros [-> ->]. reflexivity.
Qed.

(** X7. Under the recommendations the script shows either the single
    success notice, exactly when every record passes both thresholds, or
    else one warning per recommendation, in order and nothing else: the
    notices are never empty and never mix the two kinds. *)
Theorem notices_success_or_warnings (data : list row) :
  show_recommendations (recommendations py_str data) =
    (if forallb passes data
     then [success "All actors have reasonable margins and value shares."]
     else map warning (flat_map (spec_warnings py_str) data)) /\
  (forallb passes data = true <-> recommendations py_str data = []) /\
  (1 <= length (show_recommendations (recommendations py_str data)))%nat.
Proof.
  assert (E : show_recommendations (recommendations py_str data) =
              (if forallb passes data
               then [success "All actors have reasonable margins and value shares."]
               else map warning (flat_map (spec_warnings py_str) data))).
  { unfold show_recommendations.
    destruct (forallb passes data) eqn:Hp.
    - apply all_pass_no_recommendation in Hp. rewrite Hp. reflexivity.
    - destruct (recommendations py_str data) as [ | rec recs ] eqn:Hr.
      + apply all_pass_no_recommendation in Hr. congruence.
      + cbn [list_bool]. rewrite show_warnings, <- Hr, recommendations_flat_map.
        reflexivity. }
  split; [ exact E | ]. split.
  - symmetry. apply all_pass_no_recommendation.
  - unfold show_recommendations.
    destruct (recommendations py_str data) as [ | rec recs ]; cbn [list_bool].
    + cbn. lia.
    + rewrite show_warnings. cbn. lia.
Qed.

(** X8. The recommendations of a table are those of its first part followed
    by those of the rest, so the loop can be run on the parts; and there are
    at most two recommendations per record. *)
Theorem recommendations_split (data1 data2 : list row) :
  recommendations py_str (data1 ++ data2)
  = recommendations py_str data1 ++ recommendations py_str data2 /\
  (length (recommendations py_str (data1 ++ data2))
   <= 2 * (length data1 + length data2))%nat.
Proof.
  split.
  - rewrite !recommendations_flat_map. apply flat_map_app.
  - rewrite recommendations_flat_map, <- length_app.
    induction (data1 ++ data2) as [ | r data IH ]; cbn [flat_map length].
    + lia.
    + rewrite length_app.
      assert (length (spec_warnings py_str r) <= 2)%nat.
      { unfold spec_warnings.
        destruct (py_lt (Gross_Margin r) (PyInt 20)),
          (py_lt (Value_Share r) (PyInt 10)); cbn; lia. }
      lia.
Qed.

End Notices.

Lemma str_of_nat_inj i j : str_of_nat i = str_of_nat j -> i = j.
Proof.
  unfold str_of_nat. intros H.
  apply DecimalNat.Unsigned.to_uint_inj.
  assert (E : Some (Nat.to_uint i) = Some (Nat.to_uint j)).
  { rewrite <- !NilEmpty.usu, H. reflexivity. }
  injection E as E. exact E.
Qed.

(** The key of a widget tells its field and its actor. *)
Lemma keys_differ i j :
  (name_key i = name_key j -> i = j) /\
  (cost_key i = cost_key j -> i = j) /\
  (revenue_key i = revenue_key j -> i = j) /\
  name_key i <> cost_key j /\ name_key i <> revenue_key j /\
  cost_key i <> revenue_key j.
Proof.
  unfold name_key, cost_key, revenue_key. cbn [append].
  repeat split; try (intros [= H]; apply str_of_nat_inj, H); intros [= ].
Qed.

Lemma in_widget_keys k n :
  In k (widget_keys n) ->
  exists i, (i < n)%nat /\ (k = name_key i \/ k = cost_key i \/ k = revenue_key i).
Proof.
  unfold widget_keys. intros H. apply in_flat_map in H.
  destruct H as (i & Hi & Hk). apply in_seq in Hi. exists i.
  split; [ lia | ]. cbn [In] in Hk. intuition auto.
Qed.

(** X9. The keys the form gives its widgets, three per actor, are pairwise
    distinct, whatever the number of actors: no two widgets share a key. *)
Theorem widget_keys_distinct (num_actors : nat) :
  NoDup (widget_keys num_actors) /\
  length (widget_keys num_actors) = (3 * num_actors)%nat.
Proof.
  split.
  - induction num_actors as [ | n IH ].
    + constructor.
    + unfold widget_keys in *. rewrite seq_S, flat_map_app. cbn [plus flat_map].
      rewrite app_nil_r.
      assert (D : forall k,
                 In k (flat_map (fun i => [name_key i; cost_key i; revenue_key i])
                         (seq 0 n)) ->
                 ~ In k [name_key n; cost_key n; revenue_key n]).
      { intros k Hk Hn. apply in_widget_keys in Hk.
        destruct Hk as (i & Hi & Hk).
        destruct (keys_differ i n) as (A & B & C & N1 & N2 & N3).
        destruct (keys_differ n i) as (_ & _ & _ & M1 & M2 & M3).
        cbn [In] in Hn.
        destruct Hk as [-> | [-> | ->]];
          destruct Hn as [Hn | [Hn | [Hn | []]]]; symmetry in Hn;
          try (apply A in Hn; lia); try (apply B in Hn; lia);
          try (apply C in Hn; lia); try congruence;
          symmetry in Hn; congruence. }
      apply NoDup_app; [ exact IH | | exact D ].
      destruct (keys_differ n n) as (_ & _ & _ & N1 & N2 & N3).
      repeat constructor; cbn [In]; intuition congruence.
  - unfold widget_keys. induction num_actors as [ | n IH ]; [ reflexivity | ].
    rewrite seq_S, flat_map_app, length_app, IH. cbn. lia.
Qed.

Section FormFacts.

Variable text_input : string -> string.
Variable number_input : string -> float.

Lemma collect_actors_map indices :
  forall actors,
    fold_left (add_actor text_input number_input) indices actors
    = actors ++ map (fun i => {| name := text_input (name_key i);
                                 cost := number_input (cost_key i);
                                 revenue := number_input (revenue_key i) |})
                  indices.
Proof.
  induction indices as [ | i rest IH ]; intros actors; cbn [fold_left map].
  - rewrite app_nil_r. reflexivity.
  - rewrite IH. unfold add_actor. rewrite <- app_assoc. reflexivity.
Qed.

(** X10. The form yields exactly [num_actors] actors, the actor of position
    [i] read from the three widgets keyed with [i]; with at least one actor
    (the form asks for two to ten) the retail price is the revenue field of
    the last position, never the default 1, and the table has one row per
    actor. *)
Theorem form_actors (num_actors : nat) :
  (1 <= num_actors)%nat ->
  length (collect_actors text_input number_input num_actors) = num_actors /\
  (forall i,
      (i < num_actors)%nat ->
      nth_error (collect_actors text_input number_input num_actors) i
      = Some {| name := text_input (name_key i);
                cost := number_input (cost_key i);
                revenue := number_input (revenue_key i) |}) /\
  retail_price (collect_actors text_input number_input num_actors)
  = Ok (PyFloat (number_input (revenue_key (num_actors - 1)))) /\
  exists rows,
    computeMetrics (collect_actors text_input number_input num_actors) = Ok rows /\
    length rows = num_actors.
Proof.
  intros Hn. unfold collect_actors. rewrite collect_actors_map. cbn [app].
  split; [ rewrite length_map, length_seq; reflexivity | ].
  split.
  - intros i Hi. rewrite nth_error_map, nth_error_seq.
    destruct (Nat.ltb_spec i num_actors); [ reflexivity | lia ].
  - split.
    + destruct num_actors as [ | n ]; [ lia | ].
      rewrite seq_S, map_app. cbn [map plus].
      rewrite retail_price_snoc. cbn [revenue].
      replace (S n - 1)%nat with n by lia. reflexivity.
    + destruct (computation_refines
                  (map (fun i => {| name := text_input (name_key i);
                                    cost := number_input (cost_key i);
                                    revenue := number_input (revenue_key i) |})
                     (seq 0 num_actors))) as (rp & _ & _ & _ & Hc).
      eexists. split; [ unfold computeMetrics; rewrite Hc; reflexivity | ].
      cbn [data]. rewrite length_rows_of by apply length_spec_iterations.
      rewrite length_map, length_seq. reflexivity.
Qed.

End FormFacts.

Lemma form_actors_witness :
  (1 <= 2)%nat /\
  length (collect_actors (fun k => k) (fun _ => float_of_Z 7) 2) = 2%nat /\
  retail_price (collect_actors (fun k => k) (fun _ => float_of_Z 7) 2)
  = Ok (PyFloat (float_of_Z 7)) /\
  exists rows,
    computeMetrics (collect_actors (fun k => k) (fun _ => float_of_Z 7) 2)
    = Ok rows /\
    length rows = 2%nat.
Proof.
  split; [ lia | ].
  destruct (form_actors (fun k => k) (fun _ => float_of_Z 7) 2 ltac:(lia))
    as (Hlen & _ & Hrp & Hrows).
  split; [ exact Hlen | ]. split; [ exact Hrp | exact Hrows ].
Defined.

Lemma positive_finite_facts y :
  positive_finite y = true -> is_finite y = true /\ is_zero y = false.
Proof. destruct y as [ | | | [ | ] m e ]; cbn; try discriminate; auto. Qed.

Lemma percent_nonpositive x y :
  nonpositive x = true -> positive_finite y = true ->
  nonpositive (fround2 (percent x y)) = true.
Proof.
  intros Hx Hy. unfold percent.
  apply fround2_nonpositive, fmul_nonpositive; [ | reflexivity ].
  apply fdiv_nonpositive; assumption.
Qed.

(** X11. An actor that sells, at a positive price, at or below what it paid
    has a gross margin that is not positive, in the loop and rounded in the
    row, so it gets the low-gross-margin warning, wherever it stands in the
    chain. *)
Theorem loss_making_actor_warned (pre : list actor) (a : actor) (post : list actor) :
  positive_finite (revenue a) = true -> is_finite (cost a) = true ->
  well_formed (revenue a) = true -> well_formed (cost a) = true ->
  fle (revenue a) (cost a) = true ->
  exists rp st l rows r g,
    retail_price (pre ++ a :: post) = Ok rp /\
    for_each rp pre initial = Ok st /\
    metrics rp (prev_revenue st) a = Ok l /\
    computeMetrics (pre ++ a :: post) = Ok rows /\
    nth_error rows (length pre) = Some r /\
    r = make_row a l /\
    Actor r = name a /\
    gross_margin l = PyFloat g /\
    nonpositive g = true /\
    Gross_Margin r = PyFloat (fround2 g) /\
    nonpositive (fround2 g) = true /\
    py_lt (PyInt 0) (gross_margin l) = false /\
    py_lt (PyInt 0) (Gross_Margin r) = false /\
    py_lt (Gross_Margin r) (PyInt 20) = true /\
    (forall py_str,
        In (low_margin_message py_str r) (recommendations py_str rows)).
Proof.
  intros Hpos Hc Vr Vc Hle.
  destruct (positive_finite_facts _ Hpos) as [Hr Hz].
  destruct (iteration pre a post)
    as (rp & st & rows & Hrp & _ & Hst & _ & Hm & Hcm & _ & Hn).
  exists rp, st, (spec_metrics rp (prev_revenue st) a), rows,
    (make_row a (spec_metrics rp (prev_revenue st) a)),
    (percent (fsub (revenue a) (cost a)) (revenue a)).
  assert (Hg : nonpositive (percent (fsub (revenue a) (cost a)) (revenue a)) = true).
  { unfold percent. apply fmul_nonpositive; [ | reflexivity ].
    apply fdiv_nonpositive; [ | exact Hpos ].
    apply fsub_nonpositive; assumption. }
  assert (Hgm : Gross_Margin (make_row a (spec_metrics rp (prev_revenue st) a))
                = PyFloat (fround2 (percent (fsub (revenue a) (cost a)) (revenue a)))).
  { cbn [Gross_Margin make_row gross_margin spec_metrics]. rewrite Hz. reflexivity. }
  assert (Hlt : py_lt (Gross_Margin (make_row a (spec_metrics rp (prev_revenue st) a)))
                  (PyInt 20) = true).
  { rewrite Hgm. apply nonpositive_lt; [ | lia ].
    apply fround2_nonpositive, Hg. }
  do 7 (split; [ first [ assumption | reflexivity ] | ]).
  split; [ cbn [gross_margin spec_metrics]; rewrite Hz; reflexivity | ].
  split; [ exact Hg | ].
  split; [ exact Hgm | ].
  split; [ apply fround2_nonpositive, Hg | ].
  split; [ cbn [gross_margin spec_metrics]; rewrite Hz;
           apply nonpositive_not_gt, Hg | ].
  split; [ rewrite Hgm; apply nonpositive_not_gt, fround2_nonpositive, Hg | ].
  split; [ exact Hlt | ].
  intros py_str. apply low_margin_recommended; [ | exact Hlt ].
  apply (nth_error_In _ _ Hn).
Qed.

Lemma loss_making_actor_warned_witness :
  (positive_finite (revenue discounter) = true /\
   is_finite (cost discounter) = true /\
   well_formed (revenue discounter) = true /\
   well_formed (cost discounter) = true /\
   fle (revenue discounter) (cost discounter) = true) /\
  exists rows r g,
    computeMetrics dip_actors = Ok rows /\
    nth_error rows 1 = Some r /\
    Gross_Margin r = PyFloat (fround2 g) /\
    nonpositive (fround2 g) = true /\
    py_lt (Gross_Margin r) (PyInt 20) = true /\
    (forall py_str,
        In (low_margin_message py_str r) (recommendations py_str rows)).
Proof.
  split; [ repeat split | ].
  destruct (loss_making_actor_warned [farmer] discounter [retailer]
              eq_refl eq_refl eq_refl eq_refl eq_refl)
    as (rp & st & l & rows & r & g & _ & _ & _ & Hc & Hn & _ & _ & _ & _
        & Hgm & Hnp & _ & _ & Hlt & Hw).
  exists rows, r, g. repeat split; assumption.
Defined.

(** X12. When the retail price is positive, an actor that sells at or below
    the price of the actor before it has a value share that is not
    positive, in the loop and rounded in the row, so it gets the
    small-value-share warning. *)
Theorem price_drop_warned (pre : list actor) (b a : actor) (post : list actor)
  (retail : float) :
  retail_price (pre ++ b :: a :: post) = Ok (PyFloat retail) ->
  positive_finite retail = true ->
  is_finite (revenue a) = true -> is_finite (revenue b) = true ->
  well_formed (revenue a) = true -> well_formed (revenue b) = true ->
  fle (revenue a) (revenue b) = true ->
  exists st l rows r v,
    for_each (PyFloat retail) (pre ++ [b]) initial = Ok st /\
    metrics (PyFloat retail) (prev_revenue st) a = Ok l /\
    computeMetrics (pre ++ b :: a :: post) = Ok rows /\
    nth_error rows (S (length pre)) = Some r /\
    r = make_row a l /\
    Actor r = name a /\
    value_share l = PyFloat v /\
    nonpositive v = true /\
    Value_Share r = PyFloat (fround2 v) /\
    nonpositive (fround2 v) = true /\
    py_lt (PyInt 0) (value_share l) = false /\
    py_lt (PyInt 0) (Value_Share r) = false /\
    py_lt (Value_Share r) (PyInt 10) = true /\
    (forall py_str,
        In (small_share_message py_str r) (recommendations py_str rows)).
Proof.
  intros Hretail Hpos Ha Hb Va Vb Hle.
  destruct (positive_finite_facts _ Hpos) as [Hr Hz].
  destruct (iteration (pre ++ [b]) a post)
    as (rp & st & rows & Hrp & _ & Hst & Hprev & Hm & Hcm & _ & Hn).
  rewrite <- app_assoc in Hrp, Hcm. cbn [app] in Hrp, Hcm.
  rewrite length_app, Nat.add_comm in Hn. cbn [length plus] in Hn.
  rewrite prev_after_snoc in Hprev.
  rewrite Hretail in Hrp. injection Hrp as <-.
  exists st, (spec_metrics (PyFloat retail) (prev_revenue st) a), rows,
    (make_row a (spec_metrics (PyFloat retail) (prev_revenue st) a)),
    (percent (fsub (revenue a) (revenue b)) retail).
  assert (Hv : nonpositive (percent (fsub (revenue a) (revenue b)) retail) = true).
  { unfold percent. apply fmul_nonpositive; [ | reflexivity ].
    apply fdiv_nonpositive; [ | exact Hpos ].
    apply fsub_nonpositive; assumption. }
  assert (Hl : value_share (spec_metrics (PyFloat retail) (prev_revenue st) a)
               = PyFloat (percent (fsub (revenue a) (revenue b)) retail)).
  { cbn [value_share spec_metrics py_bool to_float]. rewrite Hz, Hprev. reflexivity. }
  assert (Hvs : Value_Share
                  (make_row a (spec_metrics (PyFloat retail) (prev_revenue st) a))
                = PyFloat (fround2 (percent (fsub (revenue a) (revenue b)) retail))).
  { cbn [Value_Share make_row]. rewrite Hl. reflexivity. }
  assert (Hlt : py_lt (Value_Share
                         (make_row a (spec_metrics (PyFloat retail) (prev_revenue st) a)))
                  (PyInt 10) = true).
  { rewrite Hvs. apply nonpositive_lt; [ | lia ].
    apply fround2_nonpositive, Hv. }
  do 6 (split; [ first [ assumption | reflexivity ] | ]).
  split; [ exact Hl | ].
  split; [ exact Hv | ].
  split; [ exact Hvs | ].
  split; [ apply fround2_nonpositive, Hv | ].
  split; [ rewrite Hl; apply nonpositive_not_gt, Hv | ].
  split; [ rewrite Hvs; apply nonpositive_not_gt, fround2_nonpositive, Hv | ].
  split; [ exact Hlt | ].
  intros py_str. apply small_share_recommended; [ | exact Hlt ].
  apply (nth_error_In _ _ Hn).
Qed.

Lemma price_drop_warned_witness :
  (retail_price ([] ++ farmer :: discounter :: [retailer])
   = Ok (PyFloat (float_of_Z 40)) /\
   positive_finite (float_of_Z 40) = true /\
   fle (revenue discounter) (revenue farmer) = true) /\
  exists rows r v,
    computeMetrics dip_actors = Ok rows /\
    nth_error rows 1 = Some r /\
    Value_Share r = PyFloat (fround2 v) /\
    nonpositive (fround2 v) = true /\
    py_lt (Value_Share r) (PyInt 10) = true /\
    (forall py_str,
        In (small_share_message py_str r) (recommendations py_str rows)).
Proof.
  split; [ repeat split | ].
  destruct (price_drop_warned [] farmer discounter [retailer] (float_of_Z 40)
              eq_refl eq_refl eq_refl eq_refl eq_refl eq_refl eq_refl)
    as (st & l & rows & r & v & _ & _ & Hc & Hn & _ & _ & _ & _
        & Hvs & Hnp & _ & _ & Hlt & Hw).
  exists rows, r, v. repeat split; assumption.
Defined.

Lemma all_zero_rows rp actors :
  py_bool rp = false ->
  forallb (fun a => is_zero (revenue a)) actors = true ->
  forall prev,
    Forall (fun r => Gross_Margin r = PyInt 0 /\ Value_Share r = PyInt 0)
      (rows_of actors (spec_iterations rp prev actors)).
Proof.
  intros Hb. induction actors as [ | a rest IH ]; intros H prev;
    cbn [spec_iterations rows_of]; constructor.
  - cbn [forallb] in H. apply andb_true_iff in H. destruct H as [Hz _].
    cbn [Gross_Margin Value_Share make_row gross_margin value_share spec_metrics].
    rewrite Hz, Hb. split; reflexivity.
  - cbn [forallb] in H. apply andb_true_iff in H. destruct H as [_ H].
    apply IH. exact H.
Qed.

Lemma both_warnings py_str rows :
  Forall (fun r => Gross_Margin r = PyInt 0 /\ Value_Share r = PyInt 0) rows ->
  flat_map (spec_warnings py_str) rows
  = flat_map (fun r => [low_margin_message py_str r;
                        small_share_message py_str r]) rows.
Proof.
  induction 1 as [ | r rows [Hgm Hvs] _ IH ]; [ reflexivity | ].
  cbn [flat_map]. rewrite IH. unfold spec_warnings. rewrite Hgm, Hvs.
  reflexivity.
Qed.

(** X13. When every actor sells at zero, as in the form before anything is
    entered, every row has gross margin 0 and value share 0, and the
    recommendations are both warnings for every actor, in order: twice as
    many as there are actors. *)
Theorem zero_prices_warn_twice_each (init : list actor) (z : actor) :
  forallb (fun a => is_zero (revenue a)) (init ++ [z]) = true ->
  exists rows,
    computeMetrics (init ++ [z]) = Ok rows /\
    length rows = length (init ++ [z]) /\
    Forall (fun r => Gross_Margin r = PyInt 0 /\ Value_Share r = PyInt 0) rows /\
    (forall r, In r rows ->
               py_lt (Gross_Margin r) (PyInt 20) = true /\
               py_lt (Value_Share r) (PyInt 10) = true) /\
    (forall py_str,
        recommendations py_str rows =
        flat_map (fun r => [low_margin_message py_str r;
                            small_share_message py_str r]) rows /\
        length (recommendations py_str rows) = (2 * length (init ++ [z]))%nat /\
        show_recommendations (recommendations py_str rows)
        = map warning (recommendations py_str rows)).
Proof.
  intros H.
  destruct (computation_refines (init ++ [z])) as (rp & Hrp & _ & _ & Hc).
  rewrite retail_price_snoc in Hrp. injection Hrp as <-.
  assert (Hz : is_zero (revenue z) = true).
  { rewrite forallb_app in H. apply andb_true_iff in H. destruct H as [_ H].
    cbn [forallb] in H. rewrite andb_true_r in H. exact H. }
  assert (HF := all_zero_rows (PyFloat (revenue z)) (init ++ [z])
                  ltac:(cbn [py_bool]; rewrite Hz; reflexivity) H (PyInt 0)).
  assert (Hlen : length (rows_of (init ++ [z])
                           (spec_iterations (PyFloat (revenue z)) (PyInt 0) (init ++ [z])))
                 = length (init ++ [z]))
    by apply length_rows_of, length_spec_iterations.
  eexists. split; [ unfold computeMetrics; rewrite Hc; reflexivity | ].
  cbn [data]. split; [ exact Hlen | ].
  split; [ exact HF | ].
  split.
  { intros r Hin. rewrite Forall_forall in HF.
    destruct (HF r Hin) as [-> ->]. split; reflexivity. }
  intros py_str.
  set (rows := rows_of _ _) in *. clearbody rows.
  assert (E : recommendations py_str rows =
              flat_map (fun r => [low_margin_message py_str r;
                                  small_share_message py_str r]) rows).
  { rewrite recommendations_flat_map. apply both_warnings, HF. }
  assert (L : length (recommendations py_str rows) = (2 * length (init ++ [z]))%nat).
  { rewrite E, <- Hlen. clear. induction rows as [ | r rows IH ]; [ reflexivity | ].
    cbn [flat_map length app]. rewrite IH. lia. }
  split; [ exact E | ]. split; [ exact L | ].
  unfold show_recommendations.
  destruct (recommendations py_str rows) as [ | rec recs ].
  - rewrite length_app in L. cbn in L. lia.
  - cbn [list_bool]. apply show_warnings.
Qed.

Lemma zero_prices_warn_twice_each_witness :
  forallb (fun a => is_zero (revenue a))
    ([nth 0 blank_actors farmer; nth 1 blank_actors farmer]
       ++ [nth 2 blank_actors farmer]) = true /\
  exists rows,
    computeMetrics blank_actors = Ok rows /\
    length rows = 3%nat /\
    Forall (fun r => Gross_Margin r = PyInt 0 /\ Value_Share r = PyInt 0) rows /\
    (forall py_str, length (recommendations py_str rows) = 6%nat).
Proof.
  split; [ reflexivity | ].
  destruct (zero_prices_warn_twice_each
              [nth 0 blank_actors farmer; nth 1 blank_actors farmer]
              (nth 2 blank_actors farmer) eq_refl)
    as (rows & Hc & Hlen & HF & _ & Hw).
  exists rows. split; [ exact Hc | ]. split; [ exact Hlen | ].
  split; [ exact HF | ].
  intros py_str. destruct (Hw py_str) as (_ & L & _). exact L.
Defined.

(** X14. When every revenue is a whole number below 2^52 in magnitude, no
    difference the loop takes is rounded, and the added values of the
    iterations add up exactly to the retail price. *)
Theorem whole_prices_add_up (init : list actor) (z : actor) :
  forallb (fun a => whole_price (revenue a)) (init ++ [z]) = true ->
  exists ls,
    retail_price (init ++ [z]) = Ok (PyFloat (revenue z)) /\
    iterations (PyFloat (revenue z)) (PyInt 0) (init ++ [z]) = Ok ls /\
    length ls = length (init ++ [z]) /\
    exact_differences pos_zero (init ++ [z]) = true /\
    (Qsum (added_values ls) == F2Q (revenue z))%Q.
Proof.
  intros H.
  assert (He : exact_differences (to_float (PyInt 0)) (init ++ [z]) = true).
  { apply (whole_prices_exact _ _ 0); [ reflexivity | reflexivity | exact H ]. }
  exists (spec_iterations (PyFloat (revenue z)) (PyInt 0) (init ++ [z])).
  split; [ apply retail_price_snoc | ].
  split; [ apply iterations_refines; [ exact I | left; reflexivity ] | ].
  split; [ apply length_spec_iterations | ].
  split; [ exact He | ].
  rewrite (exact_telescope (PyFloat (revenue z)) (init ++ [z]) (PyInt 0) He).
  rewrite prev_after_snoc. cbn. ring.
Qed.

Lemma whole_prices_add_up_witness :
  forallb (fun a => whole_price (revenue a)) ([farmer; processor] ++ [retailer])
  = true /\
  exists ls,
    iterations (PyFloat (revenue retailer)) (PyInt 0)
      ([farmer; processor] ++ [retailer]) = Ok ls /\
    (Qsum (added_values ls) == F2Q (revenue retailer))%Q.
Proof.
  split; [ vm_compute; reflexivity | ].
  destruct (whole_prices_add_up [farmer; processor] retailer eq_refl)
    as (ls & _ & Hi & _ & _ & Hs).
  exists ls. split; assumption.
Defined.

(** X15. An actor that pays nothing and sells at a finite non-zero price has
    a gross margin of exactly 100.0, in the loop before rounding and in the
    row after it, so it never gets the low-gross-margin warning. *)
Theorem zero_cost_margin_is_hundred (pre : list actor) (a : actor) (post : list actor) :
  is_zero (cost a) = true -> is_finite (revenue a) = true ->
  is_zero (revenue a) = false ->
  exists rp st l rows r,
    retail_price (pre ++ a :: post) = Ok rp /\
    for_each rp pre initial = Ok st /\
    metrics rp (prev_revenue st) a = Ok l /\
    gross_income l = PyFloat (revenue a) /\
    gross_margin l = PyFloat (float_of_Z 100) /\
    py_round2 (gross_margin l) = PyFloat (float_of_Z 100) /\
    computeMetrics (pre ++ a :: post) = Ok rows /\
    nth_error rows (length pre) = Some r /\
    r = make_row a l /\
    Actor r = name a /\
    Gross_Income r = PyFloat (revenue a) /\
    Gross_Margin r = PyFloat (decimal 10000 2) /\
    Gross_Margin r = PyFloat (float_of_Z 100) /\
    py_lt (Gross_Margin r) (PyInt 20) = false /\
    (forall py_str recs,
        recommend py_str recs r
        = if py_lt (Value_Share r) (PyInt 10)
          then recs ++ [small_share_message py_str r] else recs).
Proof.
  intros Hc Hr Hz.
  destruct (iteration pre a post)
    as (rp & st & rows & Hrp & _ & Hst & _ & Hm & Hcm & _ & Hn).
  exists rp, st, (spec_metrics rp (prev_revenue st) a), rows,
    (make_row a (spec_metrics rp (prev_revenue st) a)).
  assert (Hgi : fsub (revenue a) (cost a) = revenue a).
  { destruct (revenue a) as [ | | | s m e ]; try discriminate.
    destruct (cost a) as [ sc | [ | ] | | [ | ] mc ec ];
      try (cbn in Hc; discriminate Hc). reflexivity. }
  assert (Hl : gross_margin (spec_metrics rp (prev_revenue st) a)
               = PyFloat (float_of_Z 100)).
  { cbn [gross_margin spec_metrics]. rewrite Hz, Hgi. unfold percent.
    destruct (revenue a) as [ | | | s m e ]; try discriminate.
    rewrite fdiv_self. reflexivity. }
  assert (Hgm : Gross_Margin (make_row a (spec_metrics rp (prev_revenue st) a))
                = PyFloat (decimal 10000 2)).
  { cbn [Gross_Margin make_row]. rewrite Hl. reflexivity. }
  assert (Hlt : py_lt (Gross_Margin (make_row a (spec_metrics rp (prev_revenue st) a)))
                  (PyInt 20) = false).
  { rewrite Hgm. reflexivity. }
  do 3 (split; [ assumption | ]).
  split; [ cbn [gross_income spec_metrics]; rewrite Hgi; reflexivity | ].
  split; [ exact Hl | ].
  split; [ rewrite Hl; reflexivity | ].
  do 2 (split; [ assumption | ]).
  do 2 (split; [ reflexivity | ]).
  split; [ cbn [Gross_Income make_row gross_income spec_metrics];
           rewrite Hgi; reflexivity | ].
  split; [ exact Hgm | ].
  split; [ rewrite Hgm; reflexivity | ].
  split; [ exact Hlt | ].
  intros py_str recs. unfold recommend. rewrite Hlt. reflexivity.
Qed.

Lemma zero_cost_margin_is_hundred_witness :
  (is_zero (cost farmer) = true /\ is_finite (revenue farmer) = true /\
   is_zero (revenue farmer) = false) /\
  exists l rows r,
    gross_margin l = PyFloat (float_of_Z 100) /\
    computeMetrics example_actors = Ok rows /\
    nth_error rows 0 = Some r /\
    r = make_row farmer l /\
    Gross_Margin r = PyFloat (decimal 10000 2) /\
    py_lt (Gross_Margin r) (PyInt 20) = false.
Proof.
  split; [ repeat split | ].
  destruct (zero_cost_margin_is_hundred [] farmer [processor; retailer]
              eq_refl eq_refl eq_refl)
    as (rp & st & l & rows & r & _ & _ & _ & _ & Hl & _ & Hc & Hn & Hr & _ & _
        & Hgm & _ & Hlt & _).
  exists l, rows, r. repeat split; assumption.
Defined.

End Coverage.
